(** * The registration form of base-nextjs-template

    A shallow embedding of [src/components/auth/RegisterForm.tsx]: the
    component's state, its submit handler [handleSubmit], the provider
    discovery effect and the render function, followed by the registration
    endpoint the form posts to, the form's input handlers, and the
    project's interactive setup script.

    Conventions.
    - A JavaScript string is a [string]; one character of the model stands
      for one UTF-16 code unit, so [String.length] is [.length].
    - An [await]ed call to the outside (fetch, [res.json()], [signIn],
      [getProviders]) is given by its settled outcome: the promise resolves
      with a value or rejects. The outcomes are collected in a [World].
    - React state is a record; a setter is a record update. Calls that leave
      the component are appended to a log, oldest first. *)

From Stdlib Require Import String Ascii List Bool ZArith Lia PeanoNat.
Import ListNotations.

Local Open Scope string_scope.
Local Open Scope list_scope.

(** ** JavaScript values *)

Module JS.

(** What [res.json()] can hand back, plus [undefined]. Number literals are
    kept as integers: the code only ever tests a number for truthiness. *)
#[warnings="-register-all"]
Inductive Value : Type :=
| VUndefined
| VNull
| VBool (b : bool)
| VNum (n : Z)
| VStr (s : string)
| VArr (items : list Value)
| VObj (props : list (string * Value)).

(** ToBoolean. *)
Definition truthy (v : Value) : bool :=
  match v with
  | VUndefined | VNull => false
  | VBool b => b
  | VNum n => negb (n =? 0)%Z
  | VStr s => negb (s =? "")
  | VArr _ | VObj _ => true
  end.

Inductive Exn : Type :=
| TypeError
| SyntaxError
| NetworkError.

(** Own properties of an object, in enumeration order. *)
Fixpoint own_prop (props : list (string * Value)) (key : string) : Value :=
  match props with
  | [] => VUndefined
  | (k, v) :: rest => if k =? key then v else own_prop rest key
  end.

(** [v.error]: reading a property of [null] or [undefined] throws; a
    primitive or an array has no property of that name. *)
Definition get_error (v : Value) : Exn + Value :=
  match v with
  | VUndefined | VNull => inl TypeError
  | VObj props => inr (own_prop props "error")
  | VBool _ | VNum _ | VStr _ | VArr _ => inr VUndefined
  end.

(** [a || b] *)
Definition or_else (a b : Value) : Value := if truthy a then a else b.

End JS.

Import JS.

(** ** The world outside the component *)

Inductive Body : Type :=
| JSON_stringify (v : Value).

Record RequestInit : Type := {
  method : string;
  headers : list (string * string);
  body : Body
}.

Inductive JsonOutcome : Type :=
| JsonRejects (e : Exn)
| JsonResolves (data : Value).

Record Response : Type := {
  ok : bool;
  json : JsonOutcome
}.

Inductive FetchOutcome : Type :=
| FetchRejects (e : Exn)
| FetchResolves (res : Response).

Record SignInOptions : Type := {
  opt_email : string;
  opt_password : string;
  redirect : bool
}.

(** The object next-auth resolves [signIn] with when [redirect] is false. *)
Record SignInResponse : Type := {
  si_error : option string;
  si_status : Z;
  si_ok : bool
}.

Inductive SignInOutcome : Type :=
| SignInRejects (e : Exn)
| SignInResolves (r : SignInResponse).

Record ClientSafeProvider : Type := {
  id : string;
  name : string;
  type : string
}.

(** [Record<string, ClientSafeProvider>], as its entries in enumeration
    order. *)
Definition Providers : Type := list (string * ClientSafeProvider).

Inductive ProvidersOutcome : Type :=
| ProvidersRejects (e : Exn)
| ProvidersResolves (p : option Providers).

Record World : Type := {
  fetch_outcome : string -> RequestInit -> FetchOutcome;
  signIn_outcome : string -> SignInOptions -> SignInOutcome;
  getProviders_outcome : ProvidersOutcome
}.

(** Calls that leave the component. *)
Inductive Effect : Type :=
| PreventDefault
| Fetch (url : string) (init : RequestInit)
| ResJson
| SignIn (provider : string) (opts : SignInOptions)
| LocationHref (href : string)
| GetProviders.

(** ** Component state *)

Record State : Type := {
  st_name : string;
  st_email : string;
  st_password : string;
  st_confirmPassword : string;
  isLoading : bool;
  error : Value;
  success : bool;
  providers : option Providers
}.

Definition initial : State := {|
  st_name := "";
  st_email := "";
  st_password := "";
  st_confirmPassword := "";
  isLoading := false;
  error := VStr "";
  success := false;
  providers := None
|}.

Record Sys : Type := {
  comp : State;
  log : list Effect
}.

(** ** A state and exception monad for handlers *)

Module Handler.

Definition M (A : Type) : Type := Sys -> (Exn + A) * Sys.

Definition ret {A} (a : A) : M A := fun s => (inr a, s).

Definition throw {A} (e : Exn) : M A := fun s => (inl e, s).

Definition bind {A B} (m : M A) (k : A -> M B) : M B :=
  fun s =>
    match m s with
    | (inl e, s') => (inl e, s')
    | (inr a, s') => k a s'
    end.

Definition lift {A} (r : Exn + A) : M A :=
  match r with
  | inl e => throw e
  | inr a => ret a
  end.

(** [try { body } catch { handler } finally { fin }]: the completion of the
    block is the one of [fin] when it throws, else the one of [handler] when
    [body] threw, else the one of [body]. *)
Definition try_catch_finally (body handler fin : M unit) : M unit :=
  fun s =>
    let r :=
      match body s with
      | (inl _, s') => handler s'
      | (inr u, s') => (inr u, s')
      end in
    match fin (snd r) with
    | (inl e, s'') => (inl e, s'')
    | (inr _, s'') => (fst r, s'')
    end.

Definition modify (f : State -> State) : M unit :=
  fun s => (inr tt, {| comp := f (comp s); log := log s |}).

Definition emit (e : Effect) : M unit :=
  fun s => (inr tt, {| comp := comp s; log := log s ++ [e] |}).

End Handler.

Import Handler.

Declare Scope handler_scope.
Delimit Scope handler_scope with handler.
Notation "x <- m ;; k" := (bind m (fun x => k))
  (at level 61, m at next level, right associativity) : handler_scope.
Notation "m ;; k" := (bind m (fun _ => k))
  (at level 61, right associativity) : handler_scope.

(** ** The component *)

Module RegisterForm.

Local Open Scope handler_scope.

Definition setIsLoading (b : bool) : M unit :=
  modify (fun s => {|
    st_name := st_name s; st_email := st_email s;
    st_password := st_password s;
    st_confirmPassword := st_confirmPassword s;
    isLoading := b; error := error s; success := success s;
    providers := providers s |}).

Definition setError (v : Value) : M unit :=
  modify (fun s => {|
    st_name := st_name s; st_email := st_email s;
    st_password := st_password s;
    st_confirmPassword := st_confirmPassword s;
    isLoading := isLoading s; error := v; success := success s;
    providers := providers s |}).

Definition setSuccess (b : bool) : M unit :=
  modify (fun s => {|
    st_name := st_name s; st_email := st_email s;
    st_password := st_password s;
    st_confirmPassword := st_confirmPassword s;
    isLoading := isLoading s; error := error s; success := b;
    providers := providers s |}).

Definition setProviders (p : option Providers) : M unit :=
  modify (fun s => {|
    st_name := st_name s; st_email := st_email s;
    st_password := st_password s;
    st_confirmPassword := st_confirmPassword s;
    isLoading := isLoading s; error := error s; success := success s;
    providers := p |}).

Section Submit.

(** The outside world, and the state the handler closes over: [handleSubmit]
    is created by the render that saw [c], and reads the four fields from
    it. *)
Variable w : World.
Variable c : State.

Definition preventDefault : M unit := emit PreventDefault.

Definition fetch (url : string) (init : RequestInit) : M Response :=
  emit (Fetch url init) ;;
  match fetch_outcome w url init with
  | FetchRejects e => throw e
  | FetchResolves res => ret res
  end.

Definition res_json (res : Response) : M Value :=
  emit ResJson ;;
  match json res with
  | JsonRejects e => throw e
  | JsonResolves data => ret data
  end.

Definition signIn (provider : string) (opts : SignInOptions)
  : M SignInResponse :=
  emit (SignIn provider opts) ;;
  match signIn_outcome w provider opts with
  | SignInRejects e => throw e
  | SignInResolves r => ret r
  end.

Definition set_location_href (href : string) : M unit :=
  emit (LocationHref href).

Definition register_request : RequestInit := {|
  method := "POST";
  headers := [("Content-Type", "application/json")];
  body := JSON_stringify (VObj [("name", VStr (st_name c));
                                ("email", VStr (st_email c));
                                ("password", VStr (st_password c))])
|}.

Definition handleSubmit : M unit :=
  preventDefault ;;
  setIsLoading true ;;
  setError (VStr "") ;;
  (* Basic validation *)
  if negb (truthy (VStr (st_name c))) || negb (truthy (VStr (st_email c)))
     || negb (truthy (VStr (st_password c)))
     || negb (truthy (VStr (st_confirmPassword c)))
  then
    setError (VStr "All fields are required") ;;
    setIsLoading false
  else if negb (st_password c =? st_confirmPassword c) then
    setError (VStr "Passwords do not match") ;;
    setIsLoading false
  else if (String.length (st_password c) <? 6)%nat then
    setError (VStr "Password must be at least 6 characters long") ;;
    setIsLoading false
  else
    try_catch_finally
      (res <- fetch "/api/auth/register" register_request ;;
       data <- res_json res ;;
       if ok res then
         setSuccess true ;;
         (* Auto sign in after successful registration *)
         _ <- signIn "credentials"
                {| opt_email := st_email c;
                   opt_password := st_password c;
                   redirect := false |} ;;
         (* Redirect to home page *)
         set_location_href "/"
       else
         e <- lift (get_error data) ;;
         setError (or_else e (VStr "Registration failed")))
      (setError (VStr "An error occurred during registration"))
      (setIsLoading false).

(** One submission: the handler run from the state it closed over. *)
Definition submit : (Exn + unit) * Sys :=
  handleSubmit {| comp := c; log := [] |}.

End Submit.

(** *** The validation contract, in the words of the specification

    "Validation contract, applied in order, short-circuiting on first
    failure": the checks, what each one demands of the form, the message the
    form shows for it, and the first check of the list that fails. *)

Inductive Check : Type :=
| AllFieldsNonEmpty
| PasswordsMatch
| PasswordLongEnough.

Definition spec_order : list Check :=
  [AllFieldsNonEmpty; PasswordsMatch; PasswordLongEnough].

Definition check_holds (c : State) (k : Check) : bool :=
  match k with
  | AllFieldsNonEmpty =>
      negb (st_name c =? "") && negb (st_email c =? "")
      && negb (st_password c =? "") && negb (st_confirmPassword c =? "")
  | PasswordsMatch => st_password c =? st_confirmPassword c
  | PasswordLongEnough => (6 <=? String.length (st_password c))%nat
  end.

Definition check_message (k : Check) : string :=
  match k with
  | AllFieldsNonEmpty => "All fields are required"
  | PasswordsMatch => "Passwords do not match"
  | PasswordLongEnough => "Password must be at least 6 characters long"
  end.

Definition first_failure (c : State) : option Check :=
  find (fun k => negb (check_holds c k)) spec_order.

(** The state a submission leaves behind: the button is released, [error]
    and [success] are as given, nothing else moved. *)
Definition settled (c : State) (err : Value) (succ : bool) : State := {|
  st_name := st_name c; st_email := st_email c;
  st_password := st_password c;
  st_confirmPassword := st_confirmPassword c;
  isLoading := false; error := err; success := succ;
  providers := providers c |}.

(** A rejected submission shows the message and keeps [success]. *)
Definition rejected (c : State) (msg : string) : State :=
  settled c (VStr msg) (success c).

Definition generic_message : string :=
  "An error occurred during registration".

(** An exception during the request: [fetch] rejects, or [res.json()]
    does. *)
Definition request_throws (w : World) (c : State) : bool :=
  match fetch_outcome w "/api/auth/register" (register_request c) with
  | FetchRejects _ => true
  | FetchResolves res =>
      match json res with
      | JsonRejects _ => true
      | JsonResolves _ => false
      end
  end.

Definition is_fetch (e : Effect) : bool :=
  match e with
  | Fetch _ _ => true
  | _ => false
  end.

Definition credentials_of (c : State) : SignInOptions := {|
  opt_email := st_email c;
  opt_password := st_password c;
  redirect := false
|}.

(** *** Provider discovery: the effect run once after the first render *)

Definition getProviders (w : World) : M (option Providers) :=
  emit GetProviders ;;
  match getProviders_outcome w with
  | ProvidersRejects e => throw e
  | ProvidersResolves p => ret p
  end.

Definition fetchProviders (w : World) : M unit :=
  providersData <- getProviders w ;;
  setProviders providersData.

(** [useEffect] starts [fetchProviders()] and drops its promise: a rejection
    reaches nobody, and the state is the one the call left behind. *)
Definition useEffect_mount (w : World) (s : State) : State :=
  comp (snd (fetchProviders w {| comp := s; log := [] |})).

(** *** Render *)

Section Render.

(** [getProviderIcon] and [getProviderColor] come from
    [@/components/auth/utils]; the view only passes their results on. *)
Variables Icon Palette : Type.
Variable getProviderIcon : string -> option Icon.
Variable getProviderColor : string -> Palette.

Record OAuthButton : Type := {
  key : string;
  onClick_signIn : string;
  colorPalette : Palette;
  icon : option Icon;
  label : string
}.

Record Form : Type := {
  in_name : string;
  in_email : string;
  in_password : string;
  in_confirmPassword : string;
  (* [error && <Text>{error}</Text>]: the text when [error] is truthy *)
  error_text : option Value;
  button_loading : bool
}.

Inductive View : Type :=
| SuccessView (text : string)
| FormView (form : Form) (signin_link : string)
           (oauth_section : option (list OAuthButton)).

Definition Object_values (p : Providers) : list ClientSafeProvider :=
  map snd p.

Definition oauthProviders (s : State) : list ClientSafeProvider :=
  match providers s with
  | Some p =>
      filter (fun provider => negb (id provider =? "credentials"))
             (Object_values p)
  | None => []
  end.

Definition oauth_button (provider : ClientSafeProvider) : OAuthButton := {|
  key := id provider;
  onClick_signIn := id provider;
  colorPalette := getProviderColor (id provider);
  icon := getProviderIcon (id provider);
  label := "Sign in with " ++ name provider
|}.

Definition render (s : State) : View :=
  if success s then
    SuccessView "Registration successful! Signing you in..."
  else
    FormView
      {| in_name := st_name s;
         in_email := st_email s;
         in_password := st_password s;
         in_confirmPassword := st_confirmPassword s;
         error_text := if truthy (error s) then Some (error s) else None;
         button_loading := isLoading s |}
      "/auth/signin"
      (if (0 <? length (oauthProviders s))%nat
       then Some (map oauth_button (oauthProviders s))
       else None).

End Render.

Arguments SuccessView {Icon Palette} text.
Arguments FormView {Icon Palette} form signin_link oauth_section.
Arguments oauth_button {Icon Palette} getProviderIcon getProviderColor
  provider.
Arguments render {Icon Palette} getProviderIcon getProviderColor s.

End RegisterForm.

(** ** The registration endpoint

    [POST /api/auth/register] is served by a route handler that is not among
    the files above; the form only knows its URL, its request body and the
    shape of its answers. *)

Module RegistrationHandler.

Record Account : Type := {
  acc_id : string;
  acc_name : string;
  acc_email : string;
  passwordHash : option string;
  createdAt : Z
}.

Record PublicAccount : Type := {
  pub_id : string;
  pub_name : string;
  pub_email : string;
  pub_createdAt : Z
}.

Record Submission : Type := {
  sub_name : string;
  sub_email : string;
  sub_password : string
}.

Inductive Error : Type :=
| ValidationError (msg : string)
| ConflictError (msg : string)
| InternalError (msg : string).

Inductive StoreError : Type :=
| UniqueViolation
| Unavailable.

(** Modelled from the spec: the Credential Store is an external database, of
    which the spec fixes the rows ("Account"), the invariant ("email is
    unique across all Accounts", "case-insensitive uniqueness enforced by the
    store") and that check-and-insert is atomic at the store boundary ("a
    unique constraint"). A store is the list of its rows, oldest first. *)
Definition Store : Type := list Account.

Definition lower (ch : ascii) : ascii :=
  let n := nat_of_ascii ch in
  if ((65 <=? n) && (n <=? 90))%nat then ascii_of_nat (n + 32) else ch.

Fixpoint lowercase (s : string) : string :=
  match s with
  | EmptyString => EmptyString
  | String ch rest => String (lower ch) (lowercase rest)
  end.

(** Modelled from the spec: the key under which the store compares emails,
    "case-insensitive". *)
Definition email_key (e : string) : string := lowercase e.

Definition has_email (e : string) (a : Account) : bool :=
  email_key (acc_email a) =? email_key e.

Definition accounts_for (s : Store) (e : string) : list Account :=
  filter (has_email e) s.

(** Modelled from the spec: the insert of the store, guarded by its unique
    constraint on the email. *)
Definition store_insert (s : Store) (a : Account) : StoreError + Store :=
  if existsb (has_email (acc_email a)) s then inl UniqueViolation
  else inr (s ++ [a]).

(** The invariant of section 3: no two Accounts share an email. *)
Definition unique_emails (s : Store) : Prop :=
  NoDup (map (fun a => email_key (acc_email a)) s).

(** What one request meets at the store: whether the store answers at all,
    the rows other requests commit (through the same constraint) between
    this request's pre-check and its insert, and the identifier and the
    timestamp a new row gets. *)
Record Env : Type := {
  up : bool;
  others : list Account;
  new_id : string;
  now : Z
}.

Definition commit_others (s : Store) (rows : list Account) : Store :=
  fold_left (fun s a =>
               match store_insert s a with
               | inr s' => s'
               | inl _ => s
               end) rows s.

Definition public (a : Account) : PublicAccount := {|
  pub_id := acc_id a;
  pub_name := acc_name a;
  pub_email := acc_email a;
  pub_createdAt := createdAt a
|}.

Section Handler.

(** The salted, slow password hash. *)
Variable hash : string -> string.

(** The row a valid submission becomes: the hash is stored, never the
    password. *)
Definition new_account (env : Env) (req : Submission) : Account := {|
  acc_id := new_id env;
  acc_name := sub_name req;
  acc_email := sub_email req;
  passwordHash := Some (hash (sub_password req));
  createdAt := now env
|}.

(** Modelled from the spec: the Registration Handler of section 4.1, whose
    route file is not among the sources. The checks run in the spec's order
    (1, 3, 4; check 2 is the form's), the first failure is the answer, and
    nothing is written on failure; on success exactly one Account is
    inserted and its public fields returned. A unique-constraint violation
    at the insert is answered like the pre-check (section 5). *)
Definition register (env : Env) (s : Store) (req : Submission)
  : (Error + PublicAccount) * Store :=
  if (sub_name req =? "") || (sub_email req =? "")
     || (sub_password req =? "")
  then (inl (ValidationError "all fields required"), s)
  else if (String.length (sub_password req) <? 6)%nat
  then (inl (ValidationError "password too short"), s)
  else if negb (up env)
  then (inl (InternalError "an error occurred"), s)
  else if existsb (has_email (sub_email req)) s
  then (inl (ConflictError "email already registered"), s)
  else
    let a := new_account env req in
    let s1 := commit_others s (others env) in
    match store_insert s1 a with
    | inl UniqueViolation =>
        (inl (ConflictError "email already registered"), s1)
    | inl Unavailable => (inl (InternalError "an error occurred"), s1)
    | inr s2 => (inr (public a), s2)
    end.

(** A submission that passes checks 1 and 3. *)
Definition well_formed (req : Submission) : bool :=
  negb ((sub_name req =? "") || (sub_email req =? "")
        || (sub_password req =? ""))
  && negb (String.length (sub_password req) <? 6)%nat.

End Handler.

(** Scenario "duplicate email" of section 8, the second time in another
    case. *)
Definition bob : Submission :=
  {| sub_name := "Bob"; sub_email := "bob@example.com";
     sub_password := "hunter22" |}.

Definition bob_again : Submission :=
  {| sub_name := "Robert"; sub_email := "Bob@Example.com";
     sub_password := "hunter23" |}.

Definition quiet (i : string) (t : Z) : Env :=
  {| up := true; others := []; new_id := i; now := t |}.

Definition toy_hash (p : string) : string := "salted:" ++ p.

End RegistrationHandler.

(** ** Scenarios

    The submissions and answers of the specification's section 8, and the
    answers a deployment gives when something is off. *)

Module Scenario.

Definition filled (n e p cp : string) : State := {|
  st_name := n; st_email := e; st_password := p; st_confirmPassword := cp;
  isLoading := false; error := VStr ""; success := false;
  providers := None |}.

Definition ada : State :=
  filled "Ada" "ada@example.com" "secret1" "secret1".

Definition created : Response := {|
  ok := true;
  json := JsonResolves (VObj [("id", VStr "u1"); ("name", VStr "Ada");
                              ("email", VStr "ada@example.com")])
|}.

Definition signed_in : SignInResponse :=
  {| si_error := None; si_status := 200%Z; si_ok := true |}.

Definition refused : SignInResponse :=
  {| si_error := Some "CredentialsSignin"; si_status := 401%Z;
     si_ok := false |}.

Definition credentials_provider : ClientSafeProvider :=
  {| id := "credentials"; name := "credentials"; type := "credentials" |}.

Definition github : ClientSafeProvider :=
  {| id := "github"; name := "GitHub"; type := "oauth" |}.

Definition world (f : FetchOutcome) (s : SignInOutcome)
  (p : ProvidersOutcome) : World := {|
  fetch_outcome := fun _ _ => f;
  signIn_outcome := fun _ _ => s;
  getProviders_outcome := p |}.

(** Happy path. *)
Definition happy : World :=
  world (FetchResolves created) (SignInResolves signed_in)
        (ProvidersResolves (Some [("credentials", credentials_provider);
                                  ("github", github)])).

(** The account is created, the auth layer then refuses the sign-in. *)
Definition bootstrap_refused : World :=
  world (FetchResolves created) (SignInResolves refused)
        (ProvidersResolves (Some [("credentials", credentials_provider)])).

(** The account is created, the sign-in call itself fails. *)
Definition bootstrap_unreachable : World :=
  world (FetchResolves created) (SignInRejects NetworkError)
        (ProvidersResolves None).

(** The endpoint answers a duplicate email. *)
Definition conflict : World :=
  world (FetchResolves
           {| ok := false;
              json := JsonResolves
                        (VObj [("error", VStr "User already exists")]) |})
        (SignInResolves refused) (ProvidersResolves None).

(** The endpoint answers an error page that is not JSON. *)
Definition error_page : World :=
  world (FetchResolves {| ok := false; json := JsonRejects SyntaxError |})
        (SignInResolves refused) (ProvidersRejects NetworkError).

(** The endpoint answers an error whose body is the JSON [null]. *)
Definition null_body : World :=
  world (FetchResolves {| ok := false; json := JsonResolves VNull |})
        (SignInResolves refused) (ProvidersResolves None).

(** The network is down. *)
Definition offline : World :=
  world (FetchRejects NetworkError) (SignInRejects NetworkError)
        (ProvidersRejects NetworkError).

End Scenario.

(** ** Typing into the form

    The four inputs are controlled: each [onChange] stores
    [e.target.value] in its own piece of state. The form, and with it
    these handlers and [handleSubmit], is on the page only while [success]
    is false. *)

Module Interaction.

Import RegisterForm.
Local Open Scope handler_scope.

Definition setName (v : string) : M unit :=
  modify (fun s => {|
    st_name := v; st_email := st_email s;
    st_password := st_password s;
    st_confirmPassword := st_confirmPassword s;
    isLoading := isLoading s; error := error s; success := success s;
    providers := providers s |}).

Definition setEmail (v : string) : M unit :=
  modify (fun s => {|
    st_name := st_name s; st_email := v;
    st_password := st_password s;
    st_confirmPassword := st_confirmPassword s;
    isLoading := isLoading s; error := error s; success := success s;
    providers := providers s |}).

Definition setPassword (v : string) : M unit :=
  modify (fun s => {|
    st_name := st_name s; st_email := st_email s;
    st_password := v;
    st_confirmPassword := st_confirmPassword s;
    isLoading := isLoading s; error := error s; success := success s;
    providers := providers s |}).

Definition setConfirmPassword (v : string) : M unit :=
  modify (fun s => {|
    st_name := st_name s; st_email := st_email s;
    st_password := st_password s;
    st_confirmPassword := v;
    isLoading := isLoading s; error := error s; success := success s;
    providers := providers s |}).

Inductive Input : Type :=
| FullName
| EmailInput
| PasswordInput
| ConfirmPasswordInput.

(** [onChange={e => setX(e.target.value)}] of the input [i]. *)
Definition onChange (i : Input) (value : string) : M unit :=
  match i with
  | FullName => setName value
  | EmailInput => setEmail value
  | PasswordInput => setPassword value
  | ConfirmPasswordInput => setConfirmPassword value
  end.

(** What a user does to the form: type into an input, or submit, the
    world answering the submission as [w] says. *)
Inductive Event : Type :=
| Change (i : Input) (value : string)
| Submit (w : World).

Definition after (s : State) (e : Event) : State :=
  if success s then s
  else
    match e with
    | Change i value => comp (snd (onChange i value {| comp := s; log := [] |}))
    | Submit w => comp (snd (submit w s))
    end.

Definition session (s : State) (events : list Event) : State :=
  fold_left after events s.

Definition is_change (e : Event) : bool :=
  match e with
  | Change _ _ => true
  | Submit _ => false
  end.

End Interaction.

(** The submission was accepted by the form and the endpoint answered ok
    with a body that parsed: the branch of line 84. *)
Definition registered (w : World) (c : State) : bool :=
  match RegisterForm.first_failure c with
  | Some _ => false
  | None =>
      match fetch_outcome w "/api/auth/register"
              (RegisterForm.register_request c) with
      | FetchRejects _ => false
      | FetchResolves res =>
          match json res with
          | JsonRejects _ => false
          | JsonResolves _ => ok res
          end
      end
  end.

(** ** The setup script

    The project's interactive setup script: it checks for Node.js and npm,
    installs the dependencies, creates [.env], generates the Prisma client,
    asks how to set up the database, and offers to seed it.

    A run is given by what the machine answers: which commands are on the
    path, what a command substitution prints, which command lines succeed,
    which files exist, and what the two [read]s leave in [REPLY]. What the
    script does is logged in order. Strings are byte strings here. *)

Module Setup.

Inductive Action : Type :=
| CommandV (name : string)
| Capture (command : string)
| Run (command : string)
| TestF (path : string)
| Echo (text : string)
| EchoE (text : string)
| Read (prompt : string).

Record Machine : Type := {
  on_path : string -> bool;
  prints : string -> string;
  succeeds : string -> bool;
  is_file : string -> bool;
  choice : string;
  answer : string
}.

(** A script either runs on with a value or has called [exit n]. *)
Definition Sh (A : Type) : Type := list Action -> (nat + A) * list Action.

Definition ret {A} (a : A) : Sh A := fun l => (inr a, l).

Definition exit {A} (n : nat) : Sh A := fun l => (inl n, l).

Definition bind {A B} (m : Sh A) (k : A -> Sh B) : Sh B :=
  fun l =>
    match m l with
    | (inl n, l') => (inl n, l')
    | (inr a, l') => k a l'
    end.

Definition emit (a : Action) : Sh unit := fun l => (inr tt, l ++ [a]).

Declare Scope sh_scope.
Delimit Scope sh_scope with sh.
Notation "x <- m ;; k" := (bind m (fun x => k))
  (at level 61, m at next level, right associativity) : sh_scope.
Notation "m ;; k" := (bind m (fun _ => k))
  (at level 61, right associativity) : sh_scope.
Local Open Scope sh_scope.

(* Colors for output *)
Definition RED : string := "\033[0;31m".
Definition GREEN : string := "\033[0;32m".
Definition YELLOW : string := "\033[1;33m".
Definition BLUE : string := "\033[0;34m".
Definition NC : string := "\033[0m".

(* Function to print colored output *)
Definition print_status (msg : string) : Sh unit :=
  emit (EchoE (BLUE ++ "[INFO]" ++ NC ++ " " ++ msg)%string).

Definition print_success (msg : string) : Sh unit :=
  emit (EchoE (GREEN ++ "[SUCCESS]" ++ NC ++ " " ++ msg)%string).

Definition print_warning (msg : string) : Sh unit :=
  emit (EchoE (YELLOW ++ "[WARNING]" ++ NC ++ " " ++ msg)%string).

Definition print_error (msg : string) : Sh unit :=
  emit (EchoE (RED ++ "[ERROR]" ++ NC ++ " " ++ msg)%string).

Section Script.

Variable m : Machine.

(* Function to check if command exists *)
Definition command_exists (name : string) : Sh bool :=
  emit (CommandV name) ;; ret (on_path m name).

(** [$(command)] *)
Definition capture (command : string) : Sh string :=
  emit (Capture command) ;; ret (prints m command).

(** A command line run for its exit status: true when it is 0. *)
Definition run (command : string) : Sh bool :=
  emit (Run command) ;; ret (succeeds m command).

(** [[ -f path ]] *)
Definition test_f (path : string) : Sh bool :=
  emit (TestF path) ;; ret (is_file m path).

Definition echo (text : string) : Sh unit := emit (Echo text).

(** [read -p prompt -n 1 -r], leaving [reply] in [REPLY]. *)
Definition read (prompt reply : string) : Sh string :=
  emit (Read prompt) ;; ret reply.

(** [[[ $REPLY =~ ^[123]$ ]]] *)
Definition matches_123 (REPLY : string) : bool :=
  (REPLY =? "1") || (REPLY =? "2") || (REPLY =? "3").

(** [[[ $REPLY =~ ^[Yy]$ ]]] *)
Definition matches_Yy (REPLY : string) : bool :=
  (REPLY =? "Y") || (REPLY =? "y").

Definition setup : Sh unit :=
  print_status "🚀 Starting project setup..." ;;
  (* Check if Node.js is installed *)
  node <- command_exists "node" ;;
  (if negb node then
     print_error "Node.js is not installed. Please install Node.js first." ;;
     exit 1
   else
     version <- capture "node --version" ;;
     print_success ("Node.js found: " ++ version)%string) ;;
  (* Check if npm is installed *)
  npm <- command_exists "npm" ;;
  (if negb npm then
     print_error "npm is not installed. Please install npm first." ;;
     exit 1
   else
     version <- capture "npm --version" ;;
     print_success ("npm found: " ++ version)%string) ;;
  (* Install dependencies *)
  print_status "📦 Installing dependencies..." ;;
  installed <- run "npm install" ;;
  (if installed then
     print_success "Dependencies installed successfully"
   else
     print_error "Failed to install dependencies" ;;
     exit 1) ;;
  (* Setup environment file *)
  env <- test_f ".env" ;;
  (if negb env then
     print_status "🔧 Setting up environment file..." ;;
     copied <- run "cp env.example .env" ;;
     if copied then
       print_success "Environment file created from env.example" ;;
       print_warning "Please update the .env file with your actual database credentials and secrets"
     else
       print_error "Failed to create .env file" ;;
       exit 1
   else
     print_warning ".env file already exists, skipping creation") ;;
  (* Generate Prisma client *)
  print_status "🔍 Generating Prisma client..." ;;
  generated <- run "npm run db:generate" ;;
  (if generated then
     print_success "Prisma client generated successfully"
   else
     print_error "Failed to generate Prisma client" ;;
     exit 1) ;;
  (* Database setup options *)
  print_status "🗄️  Setting up database..." ;;
  print_warning "Make sure your PostgreSQL database is running and accessible via the DATABASE_URL in .env" ;;
  echo "" ;;
  print_status "Choose your database setup method:" ;;
  echo "  1) Docker Compose - Start PostgreSQL with Docker (recommended)" ;;
  echo "  2) db:push        - Quick schema sync (no migration files)" ;;
  echo "  3) db:migrate     - Create migration files (for team development)" ;;
  echo "  4) Skip database setup" ;;
  echo "" ;;
  REPLY <- read "Enter your choice (1/2/3/4): " (choice m) ;;
  echo "" ;;
  (if REPLY =? "1" then
     print_status "Starting PostgreSQL with Docker Compose..." ;;
     (* Check if Docker is available *)
     docker <- command_exists "docker" ;;
     (if negb docker then
        print_error "Docker is not installed. Please install Docker first." ;;
        print_warning "You can download Docker from: https://www.docker.com/products/docker-desktop" ;;
        exit 1
      else ret tt) ;;
     up <- run "npm run db:up" ;;
     if up then
       print_success "PostgreSQL container started successfully!" ;;
       print_status "Waiting for PostgreSQL to be ready..." ;;
       _ <- run "sleep 5" ;;
       (* Push schema to database *)
       pushed <- run "npm run db:push" ;;
       if pushed then
         print_success "Database schema pushed successfully"
       else
         print_warning "Failed to push schema. Database might still be starting up." ;;
         print_warning "Try running 'npm run db:push' manually in a few seconds."
     else
       print_error "Failed to start PostgreSQL container" ;;
       print_warning "Make sure Docker is running and try again"
   else if REPLY =? "2" then
     print_status "Using db:push for quick schema sync..." ;;
     pushed <- run "npm run db:push" ;;
     if pushed then
       print_success "Database schema pushed successfully"
     else
       print_error "Failed to push database schema" ;;
       print_warning "Please check your database connection and try running 'npm run db:push' manually"
   else if REPLY =? "3" then
     print_status "Using migrate dev for development migrations..." ;;
     migrated <- run "npm run db:migrate" ;;
     if migrated then
       print_success "Database migrations created and applied successfully"
     else
       print_error "Failed to run database migrations" ;;
       print_warning "Please check your database connection and try running 'npm run db:migrate' manually"
   else if REPLY =? "4" then
     print_warning "Skipping database setup. You can run these commands later:" ;;
     print_warning "  - npm run db:up (start PostgreSQL with Docker)" ;;
     print_warning "  - npm run db:push (sync schema)" ;;
     print_warning "  - npm run db:migrate (create migrations)"
   else
     print_warning "Invalid choice. Skipping database setup.") ;;
  (* Ask about seeding if database setup was successful *)
  (if matches_123 REPLY then
     echo "" ;;
     REPLY <- read "Do you want to seed the database with initial data? (y/N): " (answer m) ;;
     echo "" ;;
     if matches_Yy REPLY then
       seeded <- run "npm run db:seed" ;;
       if seeded then
         print_success "Database seeded successfully"
       else
         print_warning "Database seeding failed or no seed script available"
     else ret tt
   else ret tt) ;;
  print_status "🎨 Project setup completed!" ;;
  echo "" ;;
  print_success "Next steps:" ;;
  echo "  1. Update your .env file with correct database credentials" ;;
  echo "  2. If you skipped it, run: npm run db:push" ;;
  echo "  3. Start the development server: npm run dev" ;;
  echo "" ;;
  print_status "Available scripts:" ;;
  echo "  - npm run dev           # Start development server" ;;
  echo "  - npm run build         # Build for production" ;;
  echo "  - npm run start         # Start production server" ;;
  echo "  - npm run lint          # Run ESLint" ;;
  echo "  - npm run test          # Run tests" ;;
  echo "" ;;
  print_status "Database commands (Docker Compose PostgreSQL):" ;;
  echo "  - npm run db:up         # Start PostgreSQL container" ;;
  echo "  - npm run db:down       # Stop PostgreSQL container" ;;
  echo "  - npm run db:studio     # Open Prisma Studio" ;;
  echo "  - npm run db:push       # Push schema to database" ;;
  echo "  - npm run db:migrate    # Run database migrations" ;;
  echo "  - npm run db:seed       # Seed database with initial data" ;;
  echo "" ;;
  print_success "Happy coding! 🎉".

(** One run of the script: how it ended, and what it did. *)
Definition execute : (nat + unit) * list Action := setup [].

(** The exit status: the argument of [exit], or the status of the last
    command, an [echo], when the script runs to its end. *)
Definition exit_status : nat :=
  match fst execute with
  | inl n => n
  | inr _ => 0
  end.

Definition transcript : list Action := snd execute.

End Script.

Definition is_echo (a : Action) : bool :=
  match a with
  | Echo _ | EchoE _ => true
  | _ => false
  end.

(** What the script did besides printing. *)
Definition steps (l : list Action) : list Action :=
  filter (fun a => negb (is_echo a)) l.


(** Everything up to the database menu went well: both tools are there,
    the install succeeded, [.env] existed or was copied, the Prisma client
    was generated. *)
Definition reaches_menu (m : Machine) : bool :=
  on_path m "node" && on_path m "npm" && succeeds m "npm install"
  && (is_file m ".env" || succeeds m "cp env.example .env")
  && succeeds m "npm run db:generate".

(** The script runs to its end: it reached the menu, and Docker is there
    if option 1 was chosen. *)
Definition completes (m : Machine) : bool :=
  reaches_menu m && negb ((choice m =? "1") && negb (on_path m "docker")).

(** The script with its printing left out, as a table: the exit status
    and the steps of a run, decision by decision. [execute_outline] below
    shows that this is what [setup] does. *)
Definition database_outline (m : Machine) : list Action + list Action :=
  if choice m =? "1" then
    if on_path m "docker" then
      inr (CommandV "docker" :: Run "npm run db:up"
           :: (if succeeds m "npm run db:up"
               then [Run "sleep 5"; Run "npm run db:push"]
               else []))
    else inl [CommandV "docker"]
  else if choice m =? "2" then inr [Run "npm run db:push"]
  else if choice m =? "3" then inr [Run "npm run db:migrate"]
  else inr [].

Definition seeding_outline (m : Machine) : list Action :=
  if matches_123 (choice m) then
    Read "Do you want to seed the database with initial data? (y/N): "
    :: (if matches_Yy (answer m) then [Run "npm run db:seed"] else [])
  else [].

Definition outline (m : Machine) : nat * list Action :=
  if negb (on_path m "node") then (1, [CommandV "node"])
  else if negb (on_path m "npm") then
    (1, [CommandV "node"; Capture "node --version"; CommandV "npm"])
  else
    let tools := [CommandV "node"; Capture "node --version";
                  CommandV "npm"; Capture "npm --version";
                  Run "npm install"] in
    if negb (succeeds m "npm install") then (1, tools)
    else
      let env := tools ++ TestF ".env"
                 :: (if is_file m ".env" then []
                     else [Run "cp env.example .env"]) in
      if negb (is_file m ".env" || succeeds m "cp env.example .env")
      then (1, env)
      else
        let generate := env ++ [Run "npm run db:generate"] in
        if negb (succeeds m "npm run db:generate") then (1, generate)
        else
          let menu := generate ++ [Read "Enter your choice (1/2/3/4): "] in
          match database_outline m with
          | inl d => (1, menu ++ d)
          | inr d => (0, menu ++ d ++ seeding_outline m)
          end.

(** A machine on which everything is installed and every command
    succeeds, with the two replies given. *)
Definition ready (first second : string) : Machine := {|
  on_path := fun _ => true;
  prints := fun _ => "v20.11.0";
  succeeds := fun _ => true;
  is_file := fun _ => false;
  choice := first;
  answer := second
|}.

(** A machine whose database commands all fail. *)
Definition no_database (first second : string) : Machine := {|
  on_path := fun _ => true;
  prints := fun _ => "v20.11.0";
  succeeds := fun c =>
    negb ((c =? "npm run db:up") || (c =? "npm run db:push")
          || (c =? "npm run db:migrate") || (c =? "npm run db:seed"));
  is_file := fun p => p =? ".env";
  choice := first;
  answer := second
|}.

End Setup.

(** * Properties *)

Import RegisterForm.

Section SubmitFacts.

Variable w : World.
Variable c : State.

Lemma truthy_VStr (s : string) : truthy (VStr s) = negb (s =? "").
Proof. reflexivity. Qed.

Lemma eqb_empty (s : string) : (s =? "") = true <-> s = "".
Proof. apply String.eqb_eq. Qed.

(** The guard of the first [if] is the negation of check 1. *)
Lemma first_guard :
  negb (truthy (VStr (st_name c))) || negb (truthy (VStr (st_email c)))
  || negb (truthy (VStr (st_password c)))
  || negb (truthy (VStr (st_confirmPassword c)))
  = negb (check_holds c AllFieldsNonEmpty).
Proof.
  rewrite !truthy_VStr. simpl.
  destruct (st_name c =? ""), (st_email c =? ""), (st_password c =? ""),
    (st_confirmPassword c =? ""); reflexivity.
Qed.

Lemma third_guard :
  (String.length (st_password c) <? 6)%nat
  = negb (check_holds c PasswordLongEnough).
Proof. simpl. apply Nat.ltb_antisym. Qed.

Lemma submit_check1 :
  check_holds c AllFieldsNonEmpty = false ->
  submit w c
  = (inr tt, {| comp := rejected c "All fields are required";
                log := [PreventDefault] |}).
Proof.
  intros H. unfold submit, handleSubmit.
  rewrite first_guard, H. reflexivity.
Qed.

Lemma submit_check2 :
  check_holds c AllFieldsNonEmpty = true ->
  check_holds c PasswordsMatch = false ->
  submit w c
  = (inr tt, {| comp := rejected c "Passwords do not match";
                log := [PreventDefault] |}).
Proof.
  intros H1 H2. unfold submit, handleSubmit.
  rewrite first_guard, H1. simpl in H2. rewrite H2. reflexivity.
Qed.

Lemma submit_check3 :
  check_holds c AllFieldsNonEmpty = true ->
  check_holds c PasswordsMatch = true ->
  check_holds c PasswordLongEnough = false ->
  submit w c
  = (inr tt,
     {| comp := rejected c "Password must be at least 6 characters long";
        log := [PreventDefault] |}).
Proof.
  intros H1 H2 H3. unfold submit, handleSubmit.
  rewrite first_guard, H1, third_guard, H3.
  simpl in H2. rewrite H2. reflexivity.
Qed.

(** What the three checks passing means for [first_failure]. *)
Lemma first_failure_None :
  first_failure c = None <->
  check_holds c AllFieldsNonEmpty = true
  /\ check_holds c PasswordsMatch = true
  /\ check_holds c PasswordLongEnough = true.
Proof.
  unfold first_failure, spec_order. cbn [find].
  destruct (check_holds c AllFieldsNonEmpty),
    (check_holds c PasswordsMatch),
    (check_holds c PasswordLongEnough); cbn [negb];
    intuition discriminate.
Qed.

(** Past validation the handler is the [try] block, entered with the button
    held and the previous message cleared. *)
Ltac enter_try H1 H2 H3 :=
  unfold submit, handleSubmit;
  rewrite first_guard, H1, third_guard, H3;
  simpl in H2; rewrite H2; cbn [negb];
  unfold try_catch_finally, bind, fetch, res_json, signIn, getProviders,
    set_location_href, preventDefault, setIsLoading, setError, setSuccess,
    modify, emit, lift, ret, throw;
  cbn [comp log fst snd app].

Section Accepted.

Hypothesis H1 : check_holds c AllFieldsNonEmpty = true.
Hypothesis H2 : check_holds c PasswordsMatch = true.
Hypothesis H3 : check_holds c PasswordLongEnough = true.

Let url := "/api/auth/register".
Let req := register_request c.

Lemma submit_fetch_rejects (e : Exn) :
  fetch_outcome w url req = FetchRejects e ->
  submit w c
  = (inr tt, {| comp := rejected c generic_message;
                log := [PreventDefault; Fetch url req] |}).
Proof.
  intros Hf. enter_try H1 H2 H3. fold url req. rewrite Hf. reflexivity.
Qed.

Lemma submit_json_rejects (res : Response) (e : Exn) :
  fetch_outcome w url req = FetchResolves res ->
  json res = JsonRejects e ->
  submit w c
  = (inr tt, {| comp := rejected c generic_message;
                log := [PreventDefault; Fetch url req; ResJson] |}).
Proof.
  intros Hf Hj. enter_try H1 H2 H3. fold url req. rewrite Hf.
  cbn. rewrite Hj. reflexivity.
Qed.

Lemma submit_not_ok (res : Response) (data : Value) :
  fetch_outcome w url req = FetchResolves res ->
  json res = JsonResolves data ->
  ok res = false ->
  submit w c
  = (inr tt,
     {| comp := match get_error data with
                | inl _ => rejected c generic_message
                | inr e => settled c (or_else e (VStr "Registration failed"))
                                   (success c)
                end;
        log := [PreventDefault; Fetch url req; ResJson] |}).
Proof.
  intros Hf Hj Hok. enter_try H1 H2 H3. fold url req. rewrite Hf.
  cbn. rewrite Hj, Hok. destruct (get_error data); reflexivity.
Qed.

Lemma submit_ok (res : Response) (data : Value) :
  fetch_outcome w url req = FetchResolves res ->
  json res = JsonResolves data ->
  ok res = true ->
  submit w c
  = (inr tt,
     match signIn_outcome w "credentials" (credentials_of c) with
     | SignInResolves _ =>
         {| comp := settled c (VStr "") true;
            log := [PreventDefault; Fetch url req; ResJson;
                    SignIn "credentials" (credentials_of c);
                    LocationHref "/"] |}
     | SignInRejects _ =>
         {| comp := settled c (VStr generic_message) true;
            log := [PreventDefault; Fetch url req; ResJson;
                    SignIn "credentials" (credentials_of c)] |}
     end).
Proof.
  intros Hf Hj Hok. enter_try H1 H2 H3. fold url req. rewrite Hf.
  cbn. rewrite Hj, Hok. fold (credentials_of c).
  destruct (signIn_outcome w "credentials" (credentials_of c)); reflexivity.
Qed.

End Accepted.

End SubmitFacts.

(** The scenarios, run. *)

Example happy_path :
  submit Scenario.happy Scenario.ada
  = (inr tt,
     {| comp := settled Scenario.ada (VStr "") true;
        log := [PreventDefault;
                Fetch "/api/auth/register" (register_request Scenario.ada);
                ResJson;
                SignIn "credentials" (credentials_of Scenario.ada);
                LocationHref "/"] |}).
Proof. reflexivity. Qed.

Example conflict_path :
  submit Scenario.conflict Scenario.ada
  = (inr tt,
     {| comp := rejected Scenario.ada "User already exists";
        log := [PreventDefault;
                Fetch "/api/auth/register" (register_request Scenario.ada);
                ResJson] |}).
Proof. reflexivity. Qed.

Example offline_path :
  submit Scenario.offline Scenario.ada
  = (inr tt,
     {| comp := rejected Scenario.ada generic_message;
        log := [PreventDefault;
                Fetch "/api/auth/register"
                  (register_request Scenario.ada)] |}).
Proof. reflexivity. Qed.

Example bootstrap_unreachable_path :
  submit Scenario.bootstrap_unreachable Scenario.ada
  = (inr tt,
     {| comp := settled Scenario.ada (VStr generic_message) true;
        log := [PreventDefault;
                Fetch "/api/auth/register" (register_request Scenario.ada);
                ResJson;
                SignIn "credentials" (credentials_of Scenario.ada)] |}).
Proof. reflexivity. Qed.

Example short_password_path :
  submit Scenario.happy (Scenario.filled "Ada" "ada@example.com" "abc" "abc")
  = (inr tt,
     {| comp := rejected
                  (Scenario.filled "Ada" "ada@example.com" "abc" "abc")
                  "Password must be at least 6 characters long";
        log := [PreventDefault] |}).
Proof. reflexivity. Qed.

(** Every way the world can answer an accepted submission. *)
Ltac by_outcome w c E1 E2 E3 :=
  let e := fresh "e" in
  let res := fresh "res" in
  let data := fresh "data" in
  let Hf := fresh "Hf" in
  let Hj := fresh "Hj" in
  let Hok := fresh "Hok" in
  destruct (fetch_outcome w "/api/auth/register" (register_request c))
    as [e|res] eqn:Hf;
  [ rewrite (submit_fetch_rejects w c E1 E2 E3 e Hf)
  | destruct (json res) as [e|data] eqn:Hj;
    [ rewrite (submit_json_rejects w c E1 E2 E3 res e Hf Hj)
    | destruct (ok res) eqn:Hok;
      [ rewrite (submit_ok w c E1 E2 E3 res data Hf Hj Hok);
        destruct (signIn_outcome w "credentials" (credentials_of c)) eqn:?
      | rewrite (submit_not_ok w c E1 E2 E3 res data Hf Hj Hok);
        destruct (get_error data) eqn:? ] ] ].

Lemma check1_false (c : State) :
  check_holds c AllFieldsNonEmpty = false <->
  st_name c = "" \/ st_email c = "" \/ st_password c = ""
  \/ st_confirmPassword c = "".
Proof.
  cbn [check_holds]. rewrite <- !eqb_empty.
  destruct (st_name c =? ""), (st_email c =? ""), (st_password c =? ""),
    (st_confirmPassword c =? ""); cbn; intuition discriminate.
Qed.

Lemma check1_true (c : State) :
  check_holds c AllFieldsNonEmpty = true <->
  st_name c <> "" /\ st_email c <> "" /\ st_password c <> ""
  /\ st_confirmPassword c <> "".
Proof.
  pose proof (check1_false c) as H.
  destruct (check_holds c AllFieldsNonEmpty).
  - split; [intros _|reflexivity].
    repeat split; intros E; enough (true = false) by discriminate;
      apply H; tauto.
  - split; [discriminate|]. intros (A & B & C & D).
    destruct H as [H _]. destruct (H eq_refl) as [?|[?|[?|?]]]; contradiction.
Qed.

Lemma truthy_or_else (e : Value) (msg : string) :
  msg <> "" -> truthy (or_else e (VStr msg)) = true.
Proof.
  intros Hm. unfold or_else. destruct (truthy e) eqn:E; [exact E|].
  cbn. apply negb_true_iff. destruct (msg =? "") eqn:E'; [|reflexivity].
  apply String.eqb_eq in E'. contradiction.
Qed.

(** A submission that fails a check is rejected with the message of the
    first failing one. *)
Lemma rejected_at_first_failure (w : World) (c : State) :
  match first_failure c with
  | Some k =>
      submit w c = (inr tt, {| comp := rejected c (check_message k);
                               log := [PreventDefault] |})
  | None => True
  end.
Proof.
  unfold first_failure, spec_order. cbn [find].
  destruct (check_holds c AllFieldsNonEmpty) eqn:E1; cbn [negb];
    [|now apply submit_check1].
  destruct (check_holds c PasswordsMatch) eqn:E2; cbn [negb];
    [|now apply submit_check2].
  destruct (check_holds c PasswordLongEnough) eqn:E3; cbn [negb];
    [exact I|now apply submit_check3].
Qed.

(** ** Validation *)

(** C1. The form applies its checks in the specification's order (all
    fields non-empty, password equals confirmation, password of length at
    least 6) and stops at the first one that fails: whatever the later
    checks would say, a submission is rejected with the message of the
    earliest failing check and nothing but [preventDefault] leaves the
    component; when no check fails the registration request is the next
    thing sent. [first_failure] is the first check of [spec_order] that
    does not hold, every check before it holds. *)
Theorem handleSubmit_checks_in_spec_order (w : World) (c : State) :
  match first_failure c with
  | Some k =>
      submit w c = (inr tt, {| comp := rejected c (check_message k);
                               log := [PreventDefault] |})
      /\ check_holds c k = false
      /\ exists before after,
           spec_order = before ++ k :: after
           /\ forallb (check_holds c) before = true
  | None =>
      forallb (check_holds c) spec_order = true
      /\ exists rest,
           log (snd (submit w c))
           = PreventDefault
             :: Fetch "/api/auth/register" (register_request c) :: rest
  end.
Proof.
  destruct (first_failure c) as [k|] eqn:F.
  - unfold first_failure, spec_order in F. cbn [find] in F.
    destruct (check_holds c AllFieldsNonEmpty) eqn:E1; cbn [negb] in F.
    + destruct (check_holds c PasswordsMatch) eqn:E2; cbn [negb] in F.
      * destruct (check_holds c PasswordLongEnough) eqn:E3;
          cbn [negb] in F; [discriminate|].
        injection F as <-. split; [now apply submit_check3|].
        split; [exact E3|].
        exists [AllFieldsNonEmpty; PasswordsMatch], [].
        split; [reflexivity|]. cbn [forallb]. now rewrite E1, E2.
      * injection F as <-. split; [now apply submit_check2|].
        split; [exact E2|].
        exists [AllFieldsNonEmpty], [PasswordLongEnough].
        split; [reflexivity|]. cbn [forallb]. now rewrite E1.
    + injection F as <-. split; [now apply submit_check1|].
      split; [exact E1|].
      exists [], [PasswordsMatch; PasswordLongEnough]. now split.
  - apply first_failure_None in F. destruct F as (E1 & E2 & E3).
    split; [unfold spec_order; cbn [forallb]; now rewrite E1, E2, E3|].
    destruct (fetch_outcome w "/api/auth/register" (register_request c))
      as [e|res] eqn:Hf.
    + rewrite (submit_fetch_rejects w c E1 E2 E3 e Hf). now eexists.
    + destruct (json res) as [e|data] eqn:Hj.
      * rewrite (submit_json_rejects w c E1 E2 E3 res e Hf Hj). now eexists.
      * destruct (ok res) eqn:Hok.
        -- rewrite (submit_ok w c E1 E2 E3 res data Hf Hj Hok).
           destruct (signIn_outcome w "credentials" (credentials_of c));
             now eexists.
        -- rewrite (submit_not_ok w c E1 E2 E3 res data Hf Hj Hok).
           now eexists.
Qed.

Lemma handleSubmit_checks_in_spec_order_witness :
  submit Scenario.happy (Scenario.filled "" "ada@example.com" "abc" "xyz")
  = (inr tt,
     {| comp := rejected (Scenario.filled "" "ada@example.com" "abc" "xyz")
                         "All fields are required";
        log := [PreventDefault] |}).
Proof.
  exact (proj1 (handleSubmit_checks_in_spec_order Scenario.happy
                  (Scenario.filled "" "ada@example.com" "abc" "xyz"))).
Defined.

(** C3. A submission whose name, email or password is the empty string is
    rejected with 'All fields are required' and writes nothing: the handler
    returns normally having called nothing but [preventDefault], so no
    request reaches the registration endpoint. *)
Theorem missing_field_rejected_without_request (w : World) (c : State) :
  st_name c = "" \/ st_email c = "" \/ st_password c = "" ->
  submit w c = (inr tt, {| comp := rejected c "All fields are required";
                           log := [PreventDefault] |})
  /\ error (comp (snd (submit w c))) = VStr "All fields are required"
  /\ filter is_fetch (log (snd (submit w c))) = [].
Proof.
  intros H.
  assert (E : check_holds c AllFieldsNonEmpty = false)
    by (apply check1_false; tauto).
  rewrite (submit_check1 w c E). repeat split.
Qed.

Lemma missing_field_rejected_without_request_witness :
  filter is_fetch
    (log (snd (submit Scenario.happy
                 (Scenario.filled "Ada" "" "secret1" "secret1")))) = [].
Proof.
  apply (missing_field_rejected_without_request Scenario.happy
           (Scenario.filled "Ada" "" "secret1" "secret1")).
  right; left; reflexivity.
Defined.

(** C4. Past the non-empty and confirmation checks, the length check
    rejects exactly the passwords shorter than 6: such a submission ends
    with 'Password must be at least 6 characters long' and no request; a
    password of length 6 or more passes, and the registration request is
    sent. *)
Theorem password_length_check (w : World) (c : State) :
  st_name c <> "" -> st_email c <> "" -> st_password c <> "" ->
  st_confirmPassword c <> "" ->
  st_password c = st_confirmPassword c ->
  (String.length (st_password c) < 6 ->
   submit w c
   = (inr tt,
      {| comp := rejected c "Password must be at least 6 characters long";
         log := [PreventDefault] |}))
  /\ (6 <= String.length (st_password c) ->
      exists rest,
        log (snd (submit w c))
        = PreventDefault
          :: Fetch "/api/auth/register" (register_request c) :: rest).
Proof.
  intros Hn He Hp Hc Heq.
  assert (E1 : check_holds c AllFieldsNonEmpty = true)
    by (apply check1_true; tauto).
  assert (E2 : check_holds c PasswordsMatch = true)
    by (apply String.eqb_eq; exact Heq).
  split; intros Hlen.
  - apply submit_check3; try assumption.
    cbn [check_holds]. apply Nat.leb_gt. exact Hlen.
  - assert (E3 : check_holds c PasswordLongEnough = true)
      by (apply Nat.leb_le; exact Hlen).
    by_outcome w c E1 E2 E3; now eexists.
Qed.

Lemma password_length_check_witness :
  submit Scenario.happy (Scenario.filled "Ada" "ada@example.com" "abc" "abc")
  = (inr tt,
     {| comp := rejected
                  (Scenario.filled "Ada" "ada@example.com" "abc" "abc")
                  "Password must be at least 6 characters long";
        log := [PreventDefault] |})
  /\ exists rest,
       log (snd (submit Scenario.happy Scenario.ada))
       = PreventDefault
         :: Fetch "/api/auth/register" (register_request Scenario.ada)
         :: rest.
Proof.
  split.
  - apply (password_length_check Scenario.happy
             (Scenario.filled "Ada" "ada@example.com" "abc" "abc"));
      cbn; (congruence || lia).
  - apply (password_length_check Scenario.happy Scenario.ada);
      cbn; (congruence || lia).
Defined.

(** C9. The confirmation field takes part in the emptiness check: with
    name, email and password filled in and the confirmation left empty, the
    submission is rejected with 'All fields are required', not with
    'Passwords do not match', and no request is sent. *)
Theorem empty_confirmation_is_a_missing_field (w : World) (c : State) :
  st_name c <> "" -> st_email c <> "" -> st_password c <> "" ->
  st_confirmPassword c = "" ->
  submit w c = (inr tt, {| comp := rejected c "All fields are required";
                           log := [PreventDefault] |})
  /\ error (comp (snd (submit w c))) = VStr "All fields are required"
  /\ error (comp (snd (submit w c))) <> VStr "Passwords do not match"
  /\ filter is_fetch (log (snd (submit w c))) = [].
Proof.
  intros _ _ _ Hc.
  assert (E : check_holds c AllFieldsNonEmpty = false)
    by (apply check1_false; tauto).
  rewrite (submit_check1 w c E). repeat split. discriminate.
Qed.

Lemma empty_confirmation_is_a_missing_field_witness :
  error (comp (snd (submit Scenario.happy
                      (Scenario.filled "Ada" "ada@example.com" "secret1" ""))))
  = VStr "All fields are required".
Proof.
  apply (empty_confirmation_is_a_missing_field Scenario.happy
           (Scenario.filled "Ada" "ada@example.com" "secret1" ""));
    cbn; congruence.
Defined.

(** ** The request and what follows it *)

(** C6. When the registration endpoint answers success, the next call is
    the credential sign-in, made with the email and the password of the
    request body, unchanged: the handler sends
    [{name, email, password}] of the form, reads the answer, and calls
    [signIn('credentials', {email, password, redirect: false})] with the
    same two values. *)
Theorem bootstrap_uses_submitted_credentials
  (w : World) (c : State) (res : Response) (data : Value) :
  first_failure c = None ->
  fetch_outcome w "/api/auth/register" (register_request c)
  = FetchResolves res ->
  json res = JsonResolves data ->
  ok res = true ->
  exists rest,
    log (snd (submit w c))
    = [PreventDefault;
       Fetch "/api/auth/register"
         {| method := "POST";
            headers := [("Content-Type", "application/json")];
            body := JSON_stringify
                      (VObj [("name", VStr (st_name c));
                             ("email", VStr (st_email c));
                             ("password", VStr (st_password c))]) |};
       ResJson;
       SignIn "credentials"
         {| opt_email := st_email c;
            opt_password := st_password c;
            redirect := false |}] ++ rest
    /\ (rest = [] \/ rest = [LocationHref "/"]).
Proof.
  intros F Hf Hj Hok. apply first_failure_None in F.
  destruct F as (E1 & E2 & E3).
  rewrite (submit_ok w c E1 E2 E3 res data Hf Hj Hok).
  destruct (signIn_outcome w "credentials" (credentials_of c)).
  - exists []. split; [reflexivity|now left].
  - exists [LocationHref "/"]. split; [reflexivity|now right].
Qed.

Lemma bootstrap_uses_submitted_credentials_witness :
  exists rest,
    log (snd (submit Scenario.happy Scenario.ada))
    = [PreventDefault;
       Fetch "/api/auth/register"
         {| method := "POST";
            headers := [("Content-Type", "application/json")];
            body := JSON_stringify
                      (VObj [("name", VStr "Ada");
                             ("email", VStr "ada@example.com");
                             ("password", VStr "secret1")]) |};
       ResJson;
       SignIn "credentials"
         {| opt_email := "ada@example.com";
            opt_password := "secret1";
            redirect := false |}] ++ rest
    /\ (rest = [] \/ rest = [LocationHref "/"]).
Proof.
  apply (bootstrap_uses_submitted_credentials Scenario.happy Scenario.ada
           Scenario.created
           (VObj [("id", VStr "u1"); ("name", VStr "Ada");
                  ("email", VStr "ada@example.com")]));
    reflexivity.
Defined.

(** C7. The handler never throws: whatever the form holds and however the
    request ends (success, a failure answer, a rejected fetch, a body that
    does not parse), [handleSubmit] completes normally with the button
    released and either [success] set or a message to show in [error]; when
    the request throws, that message is 'An error occurred during
    registration'. *)
Theorem handleSubmit_never_throws (w : World) (c : State) :
  exists s,
    submit w c = (inr tt, s)
    /\ isLoading (comp s) = false
    /\ (success (comp s) = true \/ truthy (error (comp s)) = true)
    /\ (first_failure c = None -> request_throws w c = true ->
        error (comp s) = VStr generic_message
        /\ success (comp s) = success c).
Proof.
  destruct (first_failure c) as [k|] eqn:F.
  - pose proof (rejected_at_first_failure w c) as H.
    rewrite F in H. rewrite H. eexists. split; [reflexivity|].
    split; [reflexivity|]. split; [|discriminate].
    right. destruct k; reflexivity.
  - apply first_failure_None in F. destruct F as (E1 & E2 & E3).
    unfold request_throws.
    by_outcome w c E1 E2 E3; eexists; (split; [reflexivity|]);
      (split; [reflexivity|]); cbn [comp error success settled rejected];
      (split; [|try discriminate; try (intros; now split)]);
      try (now left); try (now right).
    right. now apply truthy_or_else.
Qed.

Lemma handleSubmit_never_throws_witness :
  exists s,
    submit Scenario.offline Scenario.ada = (inr tt, s)
    /\ error (comp s) = VStr "An error occurred during registration".
Proof.
  destruct (handleSubmit_never_throws Scenario.offline Scenario.ada)
    as (s & E & _ & _ & H).
  exists s. split; [exact E|]. now apply H.
Defined.

(** C2, as the code has it. When registration succeeds and the sign-in
    that follows fails, the form sends nothing more to the registration
    endpoint, so nothing rolls the Account back, and it shows the success
    view. It does not prompt a manual sign-in: the result of [signIn] is
    not looked at, a sign-in that returns a failure is followed by the
    redirect to '/' as a successful one is, and a sign-in call that throws
    leaves the generic message behind the success view, without a
    redirect. *)
Theorem bootstrap_failure_keeps_registration
  (w : World) (c : State) (res : Response) (data : Value) :
  first_failure c = None ->
  fetch_outcome w "/api/auth/register" (register_request c)
  = FetchResolves res ->
  json res = JsonResolves data ->
  ok res = true ->
  forall (Icon Palette : Type) (getProviderIcon : string -> option Icon)
         (getProviderColor : string -> Palette),
  fst (submit w c) = inr tt
  /\ filter is_fetch (log (snd (submit w c)))
     = [Fetch "/api/auth/register" (register_request c)]
  /\ success (comp (snd (submit w c))) = true
  /\ render getProviderIcon getProviderColor (comp (snd (submit w c)))
     = SuccessView "Registration successful! Signing you in..."
  /\ match signIn_outcome w "credentials" (credentials_of c) with
     | SignInResolves _ =>
         log (snd (submit w c))
         = [PreventDefault;
            Fetch "/api/auth/register" (register_request c); ResJson;
            SignIn "credentials" (credentials_of c); LocationHref "/"]
         /\ error (comp (snd (submit w c))) = VStr ""
     | SignInRejects _ =>
         log (snd (submit w c))
         = [PreventDefault;
            Fetch "/api/auth/register" (register_request c); ResJson;
            SignIn "credentials" (credentials_of c)]
         /\ error (comp (snd (submit w c))) = VStr generic_message
     end.
Proof.
  intros F Hf Hj Hok Icon Palette gi gc. apply first_failure_None in F.
  destruct F as (E1 & E2 & E3).
  rewrite (submit_ok w c E1 E2 E3 res data Hf Hj Hok).
  destruct (signIn_outcome w "credentials" (credentials_of c));
    repeat split.
Qed.

Lemma bootstrap_failure_keeps_registration_witness :
  log (snd (submit Scenario.bootstrap_refused Scenario.ada))
  = [PreventDefault;
     Fetch "/api/auth/register" (register_request Scenario.ada); ResJson;
     SignIn "credentials" (credentials_of Scenario.ada); LocationHref "/"]
  /\ error (comp (snd (submit Scenario.bootstrap_refused Scenario.ada)))
     = VStr "".
Proof.
  apply (bootstrap_failure_keeps_registration Scenario.bootstrap_refused
           Scenario.ada Scenario.created
           (VObj [("id", VStr "u1"); ("name", VStr "Ada");
                  ("email", VStr "ada@example.com")])
           eq_refl eq_refl eq_refl eq_refl unit unit
           (fun _ => None) (fun _ => tt)).
Defined.

(** C2 as stated fails: the auth layer refuses the sign-in of the account
    just created, and the form goes on as if signed in. The handler ends
    in the same state, after the same calls, as in the run where the
    sign-in succeeded; the page is sent to '/', no message is set, and the
    view reads 'Signing you in...'. *)
Lemma refused_sign_in_proceeds_as_signed_in :
  signIn_outcome Scenario.bootstrap_refused "credentials"
    (credentials_of Scenario.ada)
  = SignInResolves {| si_error := Some "CredentialsSignin";
                      si_status := 401; si_ok := false |}
  /\ submit Scenario.bootstrap_refused Scenario.ada
     = submit Scenario.happy Scenario.ada
  /\ last (log (snd (submit Scenario.bootstrap_refused Scenario.ada)))
          PreventDefault
     = LocationHref "/"
  /\ error (comp (snd (submit Scenario.bootstrap_refused Scenario.ada)))
     = VStr ""
  /\ render (fun _ : string => @None unit) (fun _ : string => tt)
        (comp (snd (submit Scenario.bootstrap_refused Scenario.ada)))
     = SuccessView "Registration successful! Signing you in...".
Proof. repeat split. Qed.

(** C10, as the code has it. For a non-ok answer whose body parses to a
    JSON value other than [null], the message is the body's [error]
    property when that property is truthy (a string: when it is not empty)
    and 'Registration failed' otherwise, so also when the body is not an
    object; when the body does not parse, or is [null], the message is
    'An error occurred during registration'. *)
Theorem non_ok_response_message (w : World) (c : State) (res : Response) :
  first_failure c = None ->
  fetch_outcome w "/api/auth/register" (register_request c)
  = FetchResolves res ->
  ok res = false ->
  error (comp (snd (submit w c)))
  = match json res with
    | JsonResolves (VObj props) =>
        if truthy (own_prop props "error") then own_prop props "error"
        else VStr "Registration failed"
    | JsonResolves VNull | JsonResolves VUndefined | JsonRejects _ =>
        VStr "An error occurred during registration"
    | JsonResolves _ => VStr "Registration failed"
    end
  /\ (forall props s,
        json res = JsonResolves (VObj props) ->
        own_prop props "error" = VStr s -> s <> "" ->
        error (comp (snd (submit w c))) = VStr s)
  /\ (forall props,
        json res = JsonResolves (VObj props) ->
        own_prop props "error" = VUndefined
        \/ own_prop props "error" = VStr "" ->
        error (comp (snd (submit w c))) = VStr "Registration failed").
Proof.
  intros F Hf Hok. apply first_failure_None in F.
  destruct F as (E1 & E2 & E3).
  assert (Main :
    error (comp (snd (submit w c)))
    = match json res with
      | JsonResolves (VObj props) =>
          if truthy (own_prop props "error") then own_prop props "error"
          else VStr "Registration failed"
      | JsonResolves VNull | JsonResolves VUndefined | JsonRejects _ =>
          VStr "An error occurred during registration"
      | JsonResolves _ => VStr "Registration failed"
      end).
  { destruct (json res) as [e|data] eqn:Hj.
    - now rewrite (submit_json_rejects w c E1 E2 E3 res e Hf Hj).
    - rewrite (submit_not_ok w c E1 E2 E3 res data Hf Hj Hok).
      destruct data; reflexivity. }
  split; [exact Main|]. split.
  - intros props s Hj Hp Hs. rewrite Main, Hj, Hp. cbn.
    destruct (s =? "") eqn:E; [|reflexivity].
    apply String.eqb_eq in E. contradiction.
  - intros props Hj [Hp|Hp]; now rewrite Main, Hj, Hp.
Qed.

Lemma non_ok_response_message_witness :
  error (comp (snd (submit Scenario.conflict Scenario.ada)))
  = VStr "User already exists".
Proof.
  refine (proj1 (proj2
    (non_ok_response_message Scenario.conflict Scenario.ada
       {| ok := false;
          json := JsonResolves
                    (VObj [("error", VStr "User already exists")]) |}
       eq_refl eq_refl eq_refl))
    [("error", VStr "User already exists")] "User already exists"
    eq_refl eq_refl _).
  discriminate.
Defined.

(** C10 as stated fails: a non-ok answer whose body is not JSON (an error
    page), or is the JSON [null], carries no [error] field, and the message
    is not the fallback 'Registration failed' but the one of the [catch]
    branch. *)
Lemma non_json_error_body_shows_generic_message :
  fetch_outcome Scenario.error_page "/api/auth/register"
    (register_request Scenario.ada)
  = FetchResolves {| ok := false; json := JsonRejects SyntaxError |}
  /\ error (comp (snd (submit Scenario.error_page Scenario.ada)))
     = VStr "An error occurred during registration"
  /\ error (comp (snd (submit Scenario.error_page Scenario.ada)))
     <> VStr "Registration failed"
  /\ fetch_outcome Scenario.null_body "/api/auth/register"
       (register_request Scenario.ada)
     = FetchResolves {| ok := false; json := JsonResolves VNull |}
  /\ error (comp (snd (submit Scenario.null_body Scenario.ada)))
     = VStr "An error occurred during registration"
  /\ error (comp (snd (submit Scenario.null_body Scenario.ada)))
     <> VStr "Registration failed".
Proof. repeat split; discriminate. Qed.

(** ** Provider discovery and the view *)

Lemma filter_nonempty {A} (f : A -> bool) (l : list A) :
  (0 <? length (filter f l))%nat = true <-> exists x, In x l /\ f x = true.
Proof.
  split.
  - destruct (filter f l) as [|x rest] eqn:E; [discriminate|]. intros _.
    exists x. apply filter_In. rewrite E. now left.
  - intros (x & Hin & Hf).
    assert (H : In x (filter f l)) by (apply filter_In; now split).
    destruct (filter f l); [contradiction|reflexivity].
Qed.

Lemma not_credentials (p : ClientSafeProvider) :
  negb (id p =? "credentials") = true <-> id p <> "credentials".
Proof.
  rewrite negb_true_iff. destruct (id p =? "credentials") eqn:E.
  - apply String.eqb_eq in E. split; [discriminate|contradiction].
  - apply String.eqb_neq in E. now split.
Qed.

(** What discovery leaves in [providers]: the fetched record, or the
    initial [null] when the call rejects. *)
Lemma useEffect_mount_providers (w : World) (s : State) :
  providers s = None ->
  providers (useEffect_mount w s)
  = match getProviders_outcome w with
    | ProvidersResolves p => p
    | ProvidersRejects _ => None
    end
  /\ success (useEffect_mount w s) = success s
  /\ st_name (useEffect_mount w s) = st_name s
  /\ st_email (useEffect_mount w s) = st_email s
  /\ st_password (useEffect_mount w s) = st_password s
  /\ st_confirmPassword (useEffect_mount w s) = st_confirmPassword s.
Proof.
  intros Hp. unfold useEffect_mount, fetchProviders, getProviders, bind, emit.
  cbn [comp log]. destruct (getProviders_outcome w); cbn; auto 10.
Qed.

(** C5. Before registration has succeeded, the view holds the credentials
    form whatever provider discovery gave: when [getProviders] rejects,
    resolves with [null] or lists only the credentials provider, the form
    is there with no OAuth section; the OAuth section is rendered exactly
    when the fetched record holds a provider whose id is not
    'credentials', and then has one button for each such provider. *)
Theorem credentials_form_whatever_discovery_gives
  (Icon Palette : Type) (getProviderIcon : string -> option Icon)
  (getProviderColor : string -> Palette) (w : World) (s : State) :
  success s = false ->
  providers s = None ->
  exists form oauth,
    render getProviderIcon getProviderColor (useEffect_mount w s)
    = FormView form "/auth/signin" oauth
    /\ in_name form = st_name s /\ in_email form = st_email s
    /\ in_password form = st_password s
    /\ in_confirmPassword form = st_confirmPassword s
    /\ (oauth <> None <->
        exists p x,
          getProviders_outcome w = ProvidersResolves (Some p)
          /\ In x (Object_values p) /\ id x <> "credentials")
    /\ (forall p,
          getProviders_outcome w = ProvidersResolves (Some p) ->
          oauth <> None ->
          oauth
          = Some (map (oauth_button getProviderIcon getProviderColor)
                    (filter (fun x => negb (id x =? "credentials"))
                       (Object_values p))))
    /\ ((exists e, getProviders_outcome w = ProvidersRejects e)
        \/ getProviders_outcome w = ProvidersResolves None
        \/ (exists p,
              getProviders_outcome w = ProvidersResolves (Some p)
              /\ forall x, In x (Object_values p) -> id x = "credentials")
        -> oauth = None).
Proof.
  intros Hs Hp.
  destruct (useEffect_mount_providers w s Hp)
    as (Ep & Es & En & Ee & Epw & Ec).
  unfold render. rewrite Es, Hs. do 2 eexists.
  split; [reflexivity|]. cbn [in_name in_email in_password in_confirmPassword].
  do 4 (split; [assumption|]).
  unfold oauthProviders. rewrite Ep.
  destruct (getProviders_outcome w) as [e|[p|]] eqn:Hw.
  - cbn. split; [|split].
    + split; [intros H; now contradiction H|].
      intros (p & x & H & _). discriminate.
    + intros p H. discriminate.
    + reflexivity.
  - destruct (Nat.ltb 0 (length
                             (filter (fun x => negb (id x =? "credentials"))
                                (Object_values p)))) eqn:E.
    + pose proof (proj1 (filter_nonempty _ _) E) as (x & Hin & Hx).
      apply not_credentials in Hx. split; [|split].
      * split; [intros _; now exists p, x|discriminate].
      * intros p0 [= <-] _. reflexivity.
      * intros [(e & H)|[H|(p0 & [= <-] & Hall)]]; try discriminate.
        contradiction Hx. now apply Hall.
    + split; [|split].
      * split; [intros H; now contradiction H|].
        intros (p0 & x & [= <-] & Hin & Hx). exfalso.
        assert (T : Nat.ltb 0 (length
                            (filter (fun x => negb (id x =? "credentials"))
                               (Object_values p))) = true).
        { apply filter_nonempty. exists x. split; [exact Hin|].
          now apply not_credentials. }
        congruence.
      * intros p0 _ H. now contradiction H.
      * reflexivity.
  - cbn. split; [|split].
    + split; [intros H; now contradiction H|].
      intros (p & x & H & _). discriminate.
    + intros p H. discriminate.
    + reflexivity.
Qed.

Lemma credentials_form_whatever_discovery_gives_witness :
  exists form oauth,
    render (fun _ : string => @None unit) (fun _ : string => tt)
      (useEffect_mount Scenario.happy initial)
    = FormView form "/auth/signin" oauth
    /\ oauth
       = Some [ {| key := "github"; onClick_signIn := "github";
                   colorPalette := tt; icon := None;
                   label := "Sign in with GitHub" |} ].
Proof.
  destruct (credentials_form_whatever_discovery_gives unit unit
              (fun _ => None) (fun _ => tt) Scenario.happy initial
              eq_refl eq_refl)
    as (form & oauth & E & _ & _ & _ & _ & Hiff & Hsome & _).
  exists form, oauth. split; [exact E|].
  apply (Hsome _ eq_refl). apply Hiff.
  exists [("credentials", Scenario.credentials_provider);
          ("github", Scenario.github)], Scenario.github.
  split; [reflexivity|]. split; [right; now left|discriminate].
Defined.

(** ** The Credential Store and the registration endpoint *)

Import RegistrationHandler.

Section StoreFacts.

Variable hash : string -> string.

Lemma has_email_In (e : string) (s : Store) :
  existsb (has_email e) s = true <->
  In (email_key e) (map (fun a => email_key (acc_email a)) s).
Proof.
  rewrite existsb_exists, in_map_iff.
  split; intros (a & H1 & H2); exists a.
  - split; [apply String.eqb_eq; exact H2|exact H1].
  - split; [exact H2|apply String.eqb_eq; exact H1].
Qed.

Lemma has_email_key (e1 e2 : string) (s : Store) :
  email_key e1 = email_key e2 ->
  existsb (has_email e1) s = existsb (has_email e2) s
  /\ accounts_for s e1 = accounts_for s e2.
Proof.
  intros H.
  assert (E : forall a, has_email e1 a = has_email e2 a)
    by (intros a; unfold has_email; now rewrite H).
  split; [|now apply filter_ext].
  induction s as [|a s IH]; [reflexivity|]. cbn. now rewrite E, IH.
Qed.

Lemma store_insert_inserts (s s' : Store) (a : Account) :
  store_insert s a = inr s' ->
  s' = s ++ [a] /\ existsb (has_email (acc_email a)) s = false.
Proof.
  unfold store_insert.
  destruct (existsb (has_email (acc_email a)) s); [discriminate|].
  intros [= <-]. now split.
Qed.

Lemma store_insert_never_unavailable (s : Store) (a : Account) :
  store_insert s a <> inl Unavailable.
Proof.
  unfold store_insert.
  destruct (existsb (has_email (acc_email a)) s); discriminate.
Qed.

Lemma store_insert_unique (s s' : Store) (a : Account) :
  unique_emails s -> store_insert s a = inr s' -> unique_emails s'.
Proof.
  intros U H. apply store_insert_inserts in H as [-> E].
  unfold unique_emails in *. rewrite map_app. apply NoDup_app.
  - exact U.
  - cbn. constructor; [intros []|constructor].
  - intros k Hk [<-|[]]. apply has_email_In in Hk. congruence.
Qed.

Lemma store_insert_present (s s' : Store) (a : Account) :
  store_insert s a = inr s' ->
  existsb (has_email (acc_email a)) s' = true.
Proof.
  intros H. apply store_insert_inserts in H as [-> _].
  rewrite existsb_app. cbn. unfold has_email at 2.
  rewrite String.eqb_refl. now rewrite orb_true_r.
Qed.

Lemma commit_others_unique (rows : list Account) :
  forall s, unique_emails s -> unique_emails (commit_others s rows).
Proof.
  induction rows as [|a rows IH]; intros s U; [exact U|].
  cbn. destruct (store_insert s a) as [e|s'] eqn:E; apply IH.
  - exact U.
  - exact (store_insert_unique s s' a U E).
Qed.

Lemma commit_others_keeps (e : string) (rows : list Account) :
  forall s,
    existsb (has_email e) s = true ->
    existsb (has_email e) (commit_others s rows) = true.
Proof.
  induction rows as [|a rows IH]; intros s H; [exact H|].
  cbn. destruct (store_insert s a) as [x|s'] eqn:E; apply IH.
  - exact H.
  - apply store_insert_inserts in E as [-> _].
    rewrite existsb_app, H. reflexivity.
Qed.

Lemma accounts_for_absent (e : string) (s : Store) :
  existsb (has_email e) s = false -> accounts_for s e = [].
Proof.
  unfold accounts_for. induction s as [|a s IH]; [reflexivity|].
  cbn. destruct (has_email e a); [discriminate|]. exact IH.
Qed.

(** Under the invariant an email that is present has exactly one row. *)
Lemma accounts_for_present (e : string) (s : Store) :
  unique_emails s ->
  existsb (has_email e) s = true ->
  length (accounts_for s e) = 1.
Proof.
  unfold unique_emails, accounts_for.
  induction s as [|a s IH]; [discriminate|].
  cbn. intros U H. inversion U as [|k ks Hnotin U']; subst.
  destruct (has_email e a) eqn:Ea.
  - cbn. f_equal.
    enough (X : accounts_for s e = []) by (unfold accounts_for in X;
                                           now rewrite X).
    apply accounts_for_absent.
    destruct (existsb (has_email e) s) eqn:Es; [|reflexivity].
    apply has_email_In in Es. unfold has_email in Ea.
    apply String.eqb_eq in Ea. rewrite <- Ea in Es. contradiction.
  - apply IH; assumption.
Qed.

Lemma well_formed_passes (req : Submission) :
  well_formed req = true ->
  (sub_name req =? "") || (sub_email req =? "") || (sub_password req =? "")
  = false
  /\ (String.length (sub_password req) <? 6)%nat = false.
Proof.
  unfold well_formed. rewrite andb_true_iff, !negb_true_iff. tauto.
Qed.

(** Every registration preserves the invariant. *)
Lemma register_unique (env : Env) (s : Store) (req : Submission) :
  unique_emails s -> unique_emails (snd (register hash env s req)).
Proof.
  intros U. unfold register.
  repeat match goal with
         | |- context [if ?b then _ else _] => destruct b
         end; try exact U.
  pose proof (commit_others_unique (others env) s U) as U1.
  destruct (store_insert (commit_others s (others env))
              (new_account hash env req)) as [[|]|s2] eqn:E; try exact U1.
  exact (store_insert_unique _ _ _ U1 E).
Qed.

(** The pre-check answers a present email, and writes nothing. *)
Lemma register_precheck (env : Env) (s : Store) (req : Submission) :
  well_formed req = true -> up env = true ->
  existsb (has_email (sub_email req)) s = true ->
  register hash env s req
  = (inl (ConflictError "email already registered"), s).
Proof.
  intros W Hup H. apply well_formed_passes in W as [W1 W2].
  unfold register. now rewrite W1, W2, Hup, H.
Qed.

(** After a well-formed submission met a store that answers, its email is
    registered, whether this request or an earlier one created the row. *)
Lemma register_registers (env : Env) (s : Store) (req : Submission) :
  well_formed req = true -> up env = true ->
  existsb (has_email (sub_email req)) (snd (register hash env s req)) = true.
Proof.
  intros W Hup.
  destruct (existsb (has_email (sub_email req)) s) eqn:H.
  - now rewrite (register_precheck env s req W Hup H).
  - apply well_formed_passes in W as [W1 W2].
    unfold register. rewrite W1, W2, Hup, H. cbn [negb].
    destruct (store_insert (commit_others s (others env))
                (new_account hash env req)) as [[|]|s2] eqn:E; cbn [snd].
    + unfold store_insert in E.
      destruct (existsb (has_email (acc_email (new_account hash env req)))
                  (commit_others s (others env))) eqn:E'; [|discriminate].
      exact E'.
    + now apply store_insert_never_unavailable in E.
    + exact (store_insert_present _ _ _ E).
Qed.

End StoreFacts.

(** C8. Email uniqueness is an invariant of the Credential Store that every
    registration preserves. Of two well-formed submissions with the same
    email made one after the other to a store that answers, the second is
    answered [ConflictError] and writes nothing, and the store holds exactly
    one Account for that email. A unique-constraint violation at the insert
    is answered with the same [ConflictError] as a hit of the pre-check, and
    neither writes a row for the request. *)
Theorem email_uniqueness_preserved (hash : string -> string) :
  (forall env s req,
      unique_emails s -> unique_emails (snd (register hash env s req)))
  /\ (forall env1 env2 s r1 r2,
        unique_emails s ->
        well_formed r1 = true -> well_formed r2 = true ->
        up env1 = true -> up env2 = true ->
        email_key (sub_email r1) = email_key (sub_email r2) ->
        register hash env2 (snd (register hash env1 s r1)) r2
        = (inl (ConflictError "email already registered"),
           snd (register hash env1 s r1))
        /\ length (accounts_for (snd (register hash env1 s r1))
                     (sub_email r2)) = 1)
  /\ (forall env s req,
        well_formed req = true -> up env = true ->
        (existsb (has_email (sub_email req)) s = true ->
         register hash env s req
         = (inl (ConflictError "email already registered"), s))
        /\ (existsb (has_email (sub_email req)) s = false ->
            store_insert (commit_others s (others env))
              (new_account hash env req) = inl UniqueViolation ->
            register hash env s req
            = (inl (ConflictError "email already registered"),
               commit_others s (others env)))).
Proof.
  split; [|split].
  - intros env s req. apply register_unique.
  - intros env1 env2 s r1 r2 U W1 W2 Up1 Up2 K.
    pose proof (register_unique hash env1 s r1 U) as U1.
    pose proof (register_registers hash env1 s r1 W1 Up1) as P1.
    destruct (has_email_key _ _ (snd (register hash env1 s r1)) K)
      as [Ke Ka].
    rewrite Ke in P1. split.
    + now apply register_precheck.
    + now apply accounts_for_present.
  - intros env s req W Hup. split.
    + now apply register_precheck.
    + intros H V. apply well_formed_passes in W as [W1 W2].
      unfold register. now rewrite W1, W2, Hup, H, V.
Qed.

Lemma email_uniqueness_preserved_witness :
  register toy_hash (quiet "u2" 2)
    (snd (register toy_hash (quiet "u1" 1) [] bob)) bob_again
  = (inl (ConflictError "email already registered"),
     [ {| acc_id := "u1"; acc_name := "Bob"; acc_email := "bob@example.com";
          passwordHash := Some "salted:hunter22"; createdAt := 1 |} ])
  /\ length (accounts_for (snd (register toy_hash (quiet "u1" 1) [] bob))
               "Bob@Example.com") = 1.
Proof.
  apply (proj1 (proj2 (email_uniqueness_preserved toy_hash))
           (quiet "u1" 1) (quiet "u2" 2) [] bob bob_again);
    try reflexivity.
  constructor.
Defined.

(** * Further properties of the form *)

Import Interaction.

(** ** What a submission touches *)

(** X1. [handleSubmit] never changes what the user typed, nor the provider
    list: whatever the outcome, the four fields and [providers] are the
    ones the submission started from. *)
Theorem handleSubmit_keeps_fields_and_providers (w : World) (c : State) :
  st_name (comp (snd (submit w c))) = st_name c
  /\ st_email (comp (snd (submit w c))) = st_email c
  /\ st_password (comp (snd (submit w c))) = st_password c
  /\ st_confirmPassword (comp (snd (submit w c))) = st_confirmPassword c
  /\ providers (comp (snd (submit w c))) = providers c.
Proof.
  destruct (first_failure c) as [k|] eqn:F.
  - pose proof (rejected_at_first_failure w c) as H. rewrite F in H.
    rewrite H. repeat split.
  - apply first_failure_None in F. destruct F as (E1 & E2 & E3).
    by_outcome w c E1 E2 E3; repeat split.
Qed.

(** X2. A submission sends at most one request, and only to the
    registration endpoint: none when a check fails, and exactly the POST
    of [{name, email, password}] to '/api/auth/register' when all checks
    pass, whatever happens afterwards. *)
Theorem one_request_per_accepted_submission (w : World) (c : State) :
  filter is_fetch (log (snd (submit w c)))
  = match first_failure c with
    | Some _ => []
    | None => [Fetch "/api/auth/register" (register_request c)]
    end.
Proof.
  destruct (first_failure c) as [k|] eqn:F.
  - pose proof (rejected_at_first_failure w c) as H. rewrite F in H.
    now rewrite H.
  - apply first_failure_None in F. destruct F as (E1 & E2 & E3).
    by_outcome w c E1 E2 E3; reflexivity.
Qed.

(** X3. The form calls [signIn] only to bootstrap the session of an
    account it has just registered: a sign-in is in the log exactly when
    the submission was accepted and answered ok with a parsed body, and
    then it is the credentials sign-in with the submitted email and
    password. *)
Theorem signIn_only_after_ok_response
  (w : World) (c : State) (provider : string) (opts : SignInOptions) :
  In (SignIn provider opts) (log (snd (submit w c)))
  <-> registered w c = true
      /\ provider = "credentials" /\ opts = credentials_of c.
Proof.
  unfold registered.
  destruct (first_failure c) as [k|] eqn:F.
  - pose proof (rejected_at_first_failure w c) as H. rewrite F in H.
    rewrite H. cbn. intuition discriminate.
  - apply first_failure_None in F. destruct F as (E1 & E2 & E3).
    by_outcome w c E1 E2 E3; cbn; intuition (try discriminate; try congruence).
Qed.

(** X4. The page is sent away only after a sign-in call that returned,
    and only to '/': a navigation is in the log exactly when the account
    was registered and [signIn] resolved. *)
Theorem redirect_only_after_signIn_resolves
  (w : World) (c : State) (href : string) :
  In (LocationHref href) (log (snd (submit w c)))
  <-> registered w c = true /\ href = "/"
      /\ exists r,
           signIn_outcome w "credentials" (credentials_of c)
           = SignInResolves r.
Proof.
  unfold registered.
  destruct (first_failure c) as [k|] eqn:F.
  - pose proof (rejected_at_first_failure w c) as H. rewrite F in H.
    rewrite H. cbn. intuition discriminate.
  - apply first_failure_None in F. destruct F as (E1 & E2 & E3).
    by_outcome w c E1 E2 E3; cbn;
      (split;
       [ intuition (try discriminate; try congruence); eauto
       | intros (R & -> & r' & Hr'); try discriminate; auto 10 ]).
Qed.

(** X5. [success] is set by an ok answer of the endpoint and by nothing
    else, and is never taken back: after a submission it holds exactly
    when it held before or the account was registered. *)
Theorem success_set_only_by_ok_response (w : World) (c : State) :
  success (comp (snd (submit w c))) = success c || registered w c.
Proof.
  unfold registered.
  destruct (first_failure c) as [k|] eqn:F.
  - pose proof (rejected_at_first_failure w c) as H. rewrite F in H.
    rewrite H. cbn. now rewrite orb_false_r.
  - apply first_failure_None in F. destruct F as (E1 & E2 & E3).
    by_outcome w c E1 E2 E3; cbn;
      rewrite ?orb_false_r, ?orb_true_r; reflexivity.
Qed.

Lemma handleSubmit_keeps_fields_and_providers_witness :
  st_password (comp (snd (submit Scenario.conflict Scenario.ada)))
  = "secret1".
Proof.
  exact (proj1 (proj2 (proj2
    (handleSubmit_keeps_fields_and_providers Scenario.conflict
       Scenario.ada)))).
Defined.

(** ** One submission after another *)

(** X6. A submission starts from a clean slate: the message and the
    loading flag left by whatever came before play no part in what it
    does or in the state it leaves. Two submissions of the same fields
    (with the same [success] and [providers]) to the same world end alike,
    however their [error] and [isLoading] differed. *)
Theorem stale_message_does_not_matter (w : World) (c1 c2 : State) :
  st_name c1 = st_name c2 ->
  st_email c1 = st_email c2 ->
  st_password c1 = st_password c2 ->
  st_confirmPassword c1 = st_confirmPassword c2 ->
  success c1 = success c2 ->
  providers c1 = providers c2 ->
  submit w c1 = submit w c2.
Proof.
  destruct c1, c2. cbn. intros -> -> -> -> -> ->. reflexivity.
Qed.

Lemma stale_message_does_not_matter_witness :
  submit Scenario.happy
    (comp (snd (submit Scenario.conflict Scenario.ada)))
  = submit Scenario.happy Scenario.ada.
Proof.
  apply (stale_message_does_not_matter Scenario.happy
           (comp (snd (submit Scenario.conflict Scenario.ada)))
           Scenario.ada); reflexivity.
Defined.

(** X7. Submitting a form that fails validation again, unchanged, changes
    nothing more: the second submission ends in the state and with the
    calls of the first, so an invalid form can be resubmitted any number
    of times without a request being sent. *)
Theorem rejected_resubmission_is_idempotent
  (w w' : World) (c : State) (k : Check) :
  first_failure c = Some k ->
  submit w' (comp (snd (submit w c))) = submit w c
  /\ filter is_fetch (log (snd (submit w' (comp (snd (submit w c)))))) = [].
Proof.
  intros F.
  pose proof (rejected_at_first_failure w c) as H. rewrite F in H.
  pose proof (rejected_at_first_failure w'
                (rejected c (check_message k))) as H'.
  change (first_failure (rejected c (check_message k)))
    with (first_failure c) in H'.
  rewrite F in H'. rewrite H. cbn [snd comp]. rewrite H'.
  split; reflexivity.
Qed.

Lemma rejected_resubmission_is_idempotent_witness :
  submit Scenario.offline
    (comp (snd (submit Scenario.happy
                  (Scenario.filled "Ada" "ada@example.com" "abc" "abc"))))
  = submit Scenario.happy
      (Scenario.filled "Ada" "ada@example.com" "abc" "abc").
Proof.
  apply (rejected_resubmission_is_idempotent Scenario.happy Scenario.offline
           (Scenario.filled "Ada" "ada@example.com" "abc" "abc")
           PasswordLongEnough).
  reflexivity.
Defined.

(** ** What the user sees after a submission *)




(** ** The OAuth buttons *)

(** X9. While the form is shown, the OAuth buttons are the fetched
    providers other than 'credentials', in the order of the record: none
    has the key 'credentials', each signs in with the provider whose id is
    its key and is labelled 'Sign in with' and a provider's name, and the
    keys are distinct whenever the provider ids are. A section is rendered
    only with at least one button in it. *)
Theorem oauth_buttons_follow_the_providers
  (Icon Palette : Type) (getProviderIcon : string -> option Icon)
  (getProviderColor : string -> Palette) (s : State) :
  success s = false ->
  exists form oauth,
    render getProviderIcon getProviderColor s
    = FormView form "/auth/signin" oauth
    /\ oauth <> Some []
    /\ map (@key Icon Palette)
         (match oauth with Some buttons => buttons | None => [] end)
       = filter (fun i => negb (i =? "credentials"))
           (map id (match providers s with
                    | Some p => Object_values p
                    | None => []
                    end))
    /\ (forall b,
          In b (match oauth with Some buttons => buttons | None => [] end) ->
          key _ _ b <> "credentials" /\ onClick_signIn _ _ b = key _ _ b
          /\ exists p fetched,
               providers s = Some fetched /\ In p (Object_values fetched)
               /\ id p = key _ _ b
               /\ label _ _ b = ("Sign in with " ++ name p)%string)
    /\ (NoDup (map id (match providers s with
                       | Some p => Object_values p
                       | None => []
                       end)) ->
        NoDup (map (@key Icon Palette)
                 (match oauth with Some buttons => buttons | None => [] end))).
Proof.
  intros Hs. unfold render. rewrite Hs. do 2 eexists.
  split; [reflexivity|].
  set (l := oauthProviders s).
  assert (Buttons :
    match (if (0 <? length l)%nat
           then Some (map (oauth_button getProviderIcon getProviderColor) l)
           else None) with
    | Some buttons => buttons
    | None => []
    end = map (oauth_button getProviderIcon getProviderColor) l).
  { destruct l; reflexivity. }
  rewrite Buttons.
  assert (Keys :
    map (@key Icon Palette)
      (map (oauth_button getProviderIcon getProviderColor) l)
    = filter (fun i => negb (i =? "credentials"))
        (map id (match providers s with
                 | Some p => Object_values p
                 | None => []
                 end))).
  { rewrite map_map. cbn [oauth_button key]. unfold l, oauthProviders.
    destruct (providers s) as [p|]; [|reflexivity].
    now rewrite filter_map_swap. }
  split; [destruct l; discriminate|].
  split; [exact Keys|]. split.
  - intros b Hb. apply in_map_iff in Hb as (p & <- & Hp).
    unfold l, oauthProviders in Hp.
    destruct (providers s) as [fetched|] eqn:Ep; [|contradiction].
    apply filter_In in Hp as [Hin Hid]. apply not_credentials in Hid.
    split; [exact Hid|]. split; [reflexivity|].
    exists p, fetched. repeat split. exact Hin.
  - intros N. rewrite Keys. now apply NoDup_filter.
Qed.

Lemma oauth_buttons_follow_the_providers_witness :
  exists form oauth,
    render (fun _ : string => @None unit) (fun _ : string => tt)
      (useEffect_mount Scenario.happy initial)
    = FormView form "/auth/signin" oauth
    /\ map (@key unit unit)
         (match oauth with Some buttons => buttons | None => [] end)
       = ["github"].
Proof.
  destruct (oauth_buttons_follow_the_providers unit unit
              (fun _ => None) (fun _ => tt)
              (useEffect_mount Scenario.happy initial) eq_refl)
    as (form & oauth & E & _ & K & _).
  exists form, oauth. split; [exact E|exact K].
Defined.

(** ** Sessions: typing and submitting, any number of times *)

Lemma after_change (s : State) (i : Input) (value : string) :
  error (after s (Change i value)) = error s
  /\ isLoading (after s (Change i value)) = isLoading s
  /\ success (after s (Change i value)) = success s
  /\ providers (after s (Change i value)) = providers s.
Proof.
  unfold after. destruct (success s) eqn:Hs; [now rewrite Hs|].
  destruct i; cbn; now rewrite Hs.
Qed.

(** X10. Typing never clears the message, and never sets one: through any
    number of edits of the four inputs, [error], the loading flag,
    [success] and the provider list stay as they were. A message shown by
    a failed submission therefore stays on screen until the next
    submission. *)
Theorem typing_neither_clears_nor_sets_the_message
  (s : State) (edits : list Event) :
  forallb is_change edits = true ->
  error (session s edits) = error s
  /\ isLoading (session s edits) = isLoading s
  /\ success (session s edits) = success s
  /\ providers (session s edits) = providers s.
Proof.
  revert s. induction edits as [|e edits IH]; intros s H; [now repeat split|].
  cbn [forallb] in H. apply andb_true_iff in H as [He H].
  destruct e as [i value|w]; [|discriminate].
  change (session s (Change i value :: edits))
    with (session (after s (Change i value)) edits).
  destruct (IH (after s (Change i value)) H) as (A & B & C & D).
  destruct (after_change s i value) as (A' & B' & C' & D').
  rewrite A, B, C, D. now repeat split.
Qed.

Lemma typing_neither_clears_nor_sets_the_message_witness :
  error (session
           (comp (snd (submit Scenario.happy
                         (Scenario.filled "Ada" "ada@example.com" "abc" ""))))
           [Change ConfirmPasswordInput "a"; Change ConfirmPasswordInput "ab";
            Change ConfirmPasswordInput "abc"])
  = VStr "All fields are required".
Proof.
  apply (typing_neither_clears_nor_sets_the_message
           (comp (snd (submit Scenario.happy
                         (Scenario.filled "Ada" "ada@example.com" "abc" ""))))
           [Change ConfirmPasswordInput "a"; Change ConfirmPasswordInput "ab";
            Change ConfirmPasswordInput "abc"]).
  reflexivity.
Defined.

Lemma after_submit_rest (s : State) (w : World) :
  isLoading (after s (Submit w)) = isLoading s
  /\ error (after s (Submit w)) = error s
  \/ isLoading (after s (Submit w)) = false
     /\ (error (after s (Submit w)) = VStr ""
         \/ truthy (error (after s (Submit w))) = true).
Proof.
  unfold after. destruct (success s); [left; now split|right].
  destruct (first_failure s) as [k|] eqn:F.
  - pose proof (rejected_at_first_failure w s) as H. rewrite F in H.
    rewrite H. split; [reflexivity|]. right. destruct k; reflexivity.
  - apply first_failure_None in F. destruct F as (E1 & E2 & E3).
    by_outcome w s E1 E2 E3; (split; [reflexivity|]);
      cbn [snd comp error settled rejected];
      try (now left); try (now right).
    right. now apply truthy_or_else.
Qed.

(** X11. Between events the component is at rest in a well-formed state:
    starting from a state whose button is released and whose [error] is
    the empty string or a truthy value (the initial state is one), every
    sequence of edits and submissions, whatever the world answers, ends
    in such a state. The button is never left loading, and [error] never
    holds a falsy value other than the empty string, so the error box
    shows a message or nothing. *)
Theorem session_ends_at_rest (s : State) (events : list Event) :
  isLoading s = false ->
  error s = VStr "" \/ truthy (error s) = true ->
  isLoading (session s events) = false
  /\ (error (session s events) = VStr ""
      \/ truthy (error (session s events)) = true).
Proof.
  revert s. induction events as [|e events IH]; intros s L E;
    [now split|].
  change (session s (e :: events)) with (session (after s e) events).
  apply IH.
  - destruct e as [i value|w].
    + destruct (after_change s i value) as (_ & B & _). now rewrite B.
    + destruct (after_submit_rest s w) as [[A _]|[A _]]; congruence.
  - destruct e as [i value|w].
    + destruct (after_change s i value) as (A & _). now rewrite A.
    + destruct (after_submit_rest s w) as [[_ B]|[_ B]];
        [now rewrite B|exact B].
Qed.

Lemma session_ends_at_rest_witness :
  isLoading (session initial
               [Change FullName "Ada"; Submit Scenario.happy;
                Change EmailInput "ada@example.com";
                Change PasswordInput "secret1";
                Change ConfirmPasswordInput "secret1";
                Submit Scenario.null_body; Submit Scenario.conflict]) = false
  /\ (error (session initial
               [Change FullName "Ada"; Submit Scenario.happy;
                Change EmailInput "ada@example.com";
                Change PasswordInput "secret1";
                Change ConfirmPasswordInput "secret1";
                Submit Scenario.null_body; Submit Scenario.conflict])
      = VStr ""
      \/ truthy (error (session initial
               [Change FullName "Ada"; Submit Scenario.happy;
                Change EmailInput "ada@example.com";
                Change PasswordInput "secret1";
                Change ConfirmPasswordInput "secret1";
                Submit Scenario.null_body; Submit Scenario.conflict]))
         = true).
Proof.
  apply (session_ends_at_rest initial
           [Change FullName "Ada"; Submit Scenario.happy;
            Change EmailInput "ada@example.com";
            Change PasswordInput "secret1";
            Change ConfirmPasswordInput "secret1";
            Submit Scenario.null_body; Submit Scenario.conflict]).
  - reflexivity.
  - left; reflexivity.
Defined.

(** * Properties of the setup script *)

Module SetupFacts.

Import Setup.

(** Printing aside: an action that is not an [echo] is in the transcript
    exactly when it is among the steps. *)
Lemma in_steps (a : Action) (l : list Action) :
  is_echo a = false -> (In a l <-> In a (steps l)).
Proof.
  intros H. unfold steps. rewrite filter_In, H. cbn. tauto.
Qed.

(** Follow a run through the script, one decision at a time and in the
    order the script takes them, so that a branch that has exited is not
    split further. *)
Ltac evaluate :=
  cbv -[String.eqb on_path succeeds is_file choice answer prints].

Ltac decide_on b :=
  match goal with
  | |- context [b] => destruct b eqn:?; evaluate
  end.

Ltac follow m :=
  evaluate;
  repeat first
    [ decide_on (on_path m "node")
    | decide_on (on_path m "npm")
    | decide_on (succeeds m "npm install")
    | decide_on (is_file m ".env")
    | decide_on (succeeds m "cp env.example .env")
    | decide_on (succeeds m "npm run db:generate")
    | decide_on (choice m =? "1")
    | decide_on (on_path m "docker")
    | decide_on (succeeds m "npm run db:up")
    | decide_on (choice m =? "2")
    | decide_on (choice m =? "3")
    | decide_on (choice m =? "4")
    | decide_on (succeeds m "npm run db:push")
    | decide_on (succeeds m "npm run db:migrate")
    | decide_on (answer m =? "Y")
    | decide_on (answer m =? "y")
    | decide_on (succeeds m "npm run db:seed") ].

(** X12. The script ends with status 1 exactly when a prerequisite fails:
    Node.js or npm is missing, the install fails, [.env] is missing and
    cannot be copied, the Prisma client cannot be generated, or option 1
    is chosen without Docker. In every other run it ends with status 0:
    a database command that fails ([db:up], [db:push], [db:migrate],
    [db:seed]) is reported and the script goes on. *)
Theorem setup_exit_status (m : Machine) :
  fst (execute m) = (if completes m then inr tt else inl 1)
  /\ exit_status m = (if completes m then 0 else 1).
Proof.
  follow m; split; reflexivity.
Qed.

Lemma setup_exit_status_witness :
  exit_status (no_database "1" "y") = 0
  /\ exit_status (ready "4" "") = 0.
Proof.
  split.
  - exact (proj2 (setup_exit_status (no_database "1" "y"))).
  - exact (proj2 (setup_exit_status (ready "4" ""))).
Defined.

(** A run on a machine where everything works, option 1, seeding. *)
Example docker_run :
  exit_status (ready "1" "y") = 0
  /\ steps (transcript (ready "1" "y"))
     = [CommandV "node"; Capture "node --version";
        CommandV "npm"; Capture "npm --version";
        Run "npm install"; TestF ".env"; Run "cp env.example .env";
        Run "npm run db:generate"; Read "Enter your choice (1/2/3/4): ";
        CommandV "docker"; Run "npm run db:up"; Run "sleep 5";
        Run "npm run db:push";
        Read "Do you want to seed the database with initial data? (y/N): ";
        Run "npm run db:seed"].
Proof. split; vm_compute; reflexivity. Qed.

(** The table is the script: status and steps of every run. *)
Lemma execute_outline (m : Machine) :
  (exit_status m, steps (transcript m)) = outline m.
Proof. follow m; reflexivity. Qed.

Lemma steps_outline (m : Machine) :
  steps (transcript m) = snd (outline m).
Proof. now rewrite <- execute_outline. Qed.

Lemma status_outline (m : Machine) : exit_status m = fst (outline m).
Proof. now rewrite <- execute_outline. Qed.


(** Two different replies cannot both have been read. *)
Ltac one_reply :=
  match goal with
  | H1 : (?s =? ?a) = true, H2 : (?s =? ?b) = true |- _ =>
      apply String.eqb_eq in H1; apply String.eqb_eq in H2;
      rewrite H1 in H2; discriminate H2
  end.

Ltac settle :=
  try one_reply;
  repeat split; intros;
  repeat match goal with
         | H : _ /\ _ |- _ => destruct H
         | H : _ \/ _ |- _ => destruct H
         | H : False |- _ => destruct H
         end;
  try discriminate; try reflexivity;
  try (repeat first [left; reflexivity | right]; fail).

(** Read a property of the steps or the status off the table. *)
Ltac by_outline m :=
  rewrite ?steps_outline, ?status_outline; follow m; settle.

(** X13. An existing [.env] is never overwritten: the script copies
    [env.example] to [.env] exactly when Node.js and npm are there, the
    install succeeded, and there is no [.env] file. *)
Theorem env_file_is_copied_only_when_missing (m : Machine) :
  In (Run "cp env.example .env") (transcript m)
  <-> on_path m "node" && on_path m "npm" && succeeds m "npm install"
      && negb (is_file m ".env") = true.
Proof.
  rewrite in_steps by reflexivity. by_outline m.
Qed.



(** X15. The offer to seed follows the choice, not the outcome: the seed
    prompt is shown exactly when the script runs to its end and the reply
    to the menu was 1, 2 or 3, whether or not the database command chosen
    there ([db:up], [db:push], [db:migrate]) succeeded. *)
Theorem seed_offer_follows_the_choice (m : Machine) :
  In (Read "Do you want to seed the database with initial data? (y/N): ")
     (transcript m)
  <-> completes m = true /\ matches_123 (choice m) = true.
Proof.
  rewrite in_steps by reflexivity. by_outline m.
Qed.

(** X16. The database is seeded only on a yes: [npm run db:seed] runs
    exactly when the seed prompt was shown and answered [y] or [Y]; any
    other answer, the empty one included, skips it. *)
Theorem seed_runs_only_on_yes (m : Machine) :
  In (Run "npm run db:seed") (transcript m)
  <-> completes m = true /\ matches_123 (choice m) = true
      /\ matches_Yy (answer m) = true.
Proof.
  rewrite in_steps by reflexivity. by_outline m.
Qed.


(** X18. No step is taken twice: in every run the commands, file tests
    and prompts of the transcript are pairwise different, so each command
    line is run at most once. *)
Theorem no_step_is_taken_twice (m : Machine) :
  NoDup (steps (transcript m)).
Proof.
  rewrite steps_outline. follow m;
    repeat (constructor; [cbn; intuition discriminate|]); constructor.
Qed.

End SetupFacts.
